(** * Line classification and document rendering of [ap.py]

    A shallow embedding of [create_docx] and [create_pdf] (ap.py, lines
    63-107) and of the Python string methods they call, followed by the
    properties of the specification that concern them.

    Conventions.
    - A Python [str] is a sequence of Unicode code points: [list N].
    - The two document libraries are external.  A call into them is
      recorded as an event (an element appended to a document, an operator
      appended to a canvas); the serialisation to bytes is a parameter of
      the development.  The document library raises [ValueError] for a
      text it cannot store as XML, and the renderer that called it stops
      there.
    - The page size [letter] comes from the canvas library and is a
      parameter as well; [letter_size] is its usual value.
    - The vertical position [y] is a Python float that only ever holds
      integers of small magnitude, which floats represent exactly: [Z]. *)

From Stdlib Require Import ZArith NArith List String Ascii Bool Lia.
Import ListNotations.

Local Open Scope Z_scope.

(** ** Python strings *)

Module PyStr.

Definition char := N.
Definition str := list char.

(** A literal of the source, character by character. *)
Definition lit (s : string) : str :=
  List.map N_of_ascii (list_ascii_of_string s).

Definition char_eqb (a b : char) : bool := N.eqb a b.

(** [s.startswith(p)] *)
Fixpoint startswith (s p : str) {struct p} : bool :=
  match p with
  | [] => true
  | b :: p' =>
      match s with
      | [] => false
      | a :: s' => char_eqb a b && startswith s' p'
      end
  end.

(** [c.isspace()]: the code points CPython's [str.strip()] removes. *)
Definition isspace (c : char) : bool :=
  (((9 <=? c) && (c <=? 13)) || ((28 <=? c) && (c <=? 32))
   || (c =? 133) || (c =? 160) || (c =? 5760)
   || ((8192 <=? c) && (c <=? 8202))
   || (c =? 8232) || (c =? 8233) || (c =? 8239) || (c =? 8287)
   || (c =? 12288))%N.

(** [s.lstrip()] *)
Fixpoint lstrip (s : str) : str :=
  match s with
  | [] => []
  | c :: s' => if isspace c then lstrip s' else s
  end.

(** [s.rstrip()] *)
Fixpoint rstrip (s : str) : str :=
  match s with
  | [] => []
  | c :: s' =>
      match rstrip s' with
      | [] => if isspace c then [] else [c]
      | r => c :: r
      end
  end.

(** [s.strip()] *)
Definition strip (s : str) : str := lstrip (rstrip s).

(** [s.replace(old, new)]: every non-overlapping occurrence of [old], left
    to right.  [skip] counts the characters of a match still to be passed
    over.  With an empty [old], [new] goes before every character and at
    the end. *)
Fixpoint replace_from (old new : str) (skip : nat) (s : str) : str :=
  match s with
  | [] => []
  | c :: s' =>
      match skip with
      | S k => replace_from old new k s'
      | O =>
          if startswith s old
          then new ++ replace_from old new (Nat.pred (List.length old)) s'
          else c :: replace_from old new O s'
      end
  end.

Definition replace (s old new : str) : str :=
  match old with
  | [] => new ++ List.concat (List.map (fun c => c :: new) s)
  | _ :: _ => replace_from old new O s
  end.

(** What a Python call can raise here. *)
Inductive exn : Type :=
| ValueError.

Inductive result (A : Type) : Type :=
| Ok (a : A)
| Raise (e : exn).
Arguments Ok {A} a.
Arguments Raise {A} e.

Definition bind {A B : Type} (m : result A) (k : A -> result B) : result B :=
  match m with
  | Ok a => k a
  | Raise e => Raise e
  end.

(** [s.split(sep)] with a separator: the pieces between the non-overlapping
    occurrences of [sep], empty pieces kept. *)
Fixpoint split_from (sep : str) (skip : nat) (s : str) : list str :=
  match s with
  | [] => [[]]
  | c :: s' =>
      match skip with
      | S k => split_from sep k s'
      | O =>
          if startswith s sep
          then [] :: split_from sep (Nat.pred (List.length sep)) s'
          else
            match split_from sep O s' with
            | [] => [[c]]
            | piece :: pieces => (c :: piece) :: pieces
            end
      end
  end.

(** An empty separator is a [ValueError]. *)
Definition split (s sep : str) : result (list str) :=
  match sep with
  | [] => Raise ValueError
  | _ :: _ => Ok (split_from sep O s)
  end.

(** [sep.join(pieces)] *)
Fixpoint join (sep : str) (pieces : list str) : str :=
  match pieces with
  | [] => []
  | [p] => p
  | p :: ps => p ++ sep ++ join sep ps
  end.

End PyStr.

Import PyStr.

Notation "x <- m ;; k" := (bind m (fun x => k))
  (at level 61, m at next level, right associativity).

(** The separator of [resume_text.split("\n")]. *)
Definition newline : str := [10%N].

(** ** The flowing document (the docx library) *)

Module Docx.

(** What [doc.add_heading(text, level)] and [doc.add_paragraph(text, style)]
    append to the document body. *)
Inductive element : Type :=
| HeadingElt (text : str) (level : Z)
| ParagraphElt (text : str) (style : option str).

Definition document := list element.

(** [Document()] *)
Definition Document : document := [].

(** The characters a text of the document may hold: tab, line feed and
    carriage return, which become tabs and breaks of the run, and every
    other character that XML allows.  The library refuses the remaining
    control characters below 32, the surrogates and the two
    non-characters U+FFFE and U+FFFF. *)
Definition xml_char (c : char) : bool :=
  ((c =? 9) || (c =? 10) || (c =? 13)
   || ((32 <=? c)
       && negb ((55296 <=? c) && (c <=? 57343))
       && negb (c =? 65534) && negb (c =? 65535)))%N.

Definition xml_compatible (text : str) : bool := forallb xml_char text.

(** A document library, given by the elements it accepts; for any other it
    raises. *)
Definition library := element -> bool.

(** The library the code imports: a heading has a level from 0 to 9, and
    every text is XML compatible. *)
Definition python_docx : library :=
  fun e =>
    match e with
    | HeadingElt text level =>
        (0 <=? level) && (level <=? 9) && xml_compatible text
    | ParagraphElt text _ => xml_compatible text
    end.

(** A library that accepts whatever it is handed: its document is the
    list of the calls made. *)
Definition recorder : library := fun _ => true.

Definition add_heading (lib : library) (doc : document) (text : str)
  (level : Z) : result document :=
  if lib (HeadingElt text level) then Ok (doc ++ [HeadingElt text level])
  else Raise ValueError.

Definition add_paragraph (lib : library) (doc : document) (text : str)
  (style : option str) : result document :=
  if lib (ParagraphElt text style) then Ok (doc ++ [ParagraphElt text style])
  else Raise ValueError.

End Docx.

(** ** The canvas (the pdf library) *)

Module Canvas.

(** The calls [c.setFont], [c.drawString], [c.showPage] and [c.save], in the
    order they are made. *)
Inductive op : Type :=
| SetFont (psfontname : str) (size : Z)
| DrawString (x y : Z) (text : str)
| ShowPage
| Save.

Definition canvas := list op.

(** [canvas.Canvas(buffer, pagesize=letter)] *)
Definition Canvas : canvas := [].

Definition setFont (c : canvas) (psfontname : str) (size : Z) : canvas :=
  c ++ [SetFont psfontname size].

Definition drawString (c : canvas) (x y : Z) (text : str) : canvas :=
  c ++ [DrawString x y text].

Definition showPage (c : canvas) : canvas := c ++ [ShowPage].

Definition save (c : canvas) : canvas := c ++ [Save].

End Canvas.

Import Docx Canvas.

(** ** [create_docx], the loop body (ap.py, lines 68-73) *)

Definition docx_line (lib : library) (doc : document) (line : str)
  : result document :=
  if startswith line (lit "###") then
    add_heading lib doc (strip (replace line (lit "###") [])) 1
  else if startswith line (lit "-") then
    add_paragraph lib doc (strip line) (Some (lit "ListBullet"))
  else
    add_paragraph lib doc (strip line) None.

(** The loop of [create_docx] (ap.py, lines 67-73): the first line the
    library refuses ends it. *)
Fixpoint docx_lines (lib : library) (doc : document) (lines : list str)
  : result document :=
  match lines with
  | [] => Ok doc
  | line :: rest =>
      doc <- docx_line lib doc line ;;
      docx_lines lib doc rest
  end.

(** [create_docx] up to [doc.save], with a library [lib]. *)
Definition create_docx_in (lib : library) (resume_text name : str)
  : result document :=
  let doc := Document in
  doc <- add_heading lib doc (name ++ lit "'s Resume") 0 ;;
  lines <- split resume_text newline ;;
  docx_lines lib doc lines.

(** The characters in front of a bullet's text in [create_pdf], as the file
    has them, with the space of the f-string. *)
Definition bullet_prefix : str := [226; 8364; 162; 32]%N.

(** ** [create_pdf], the loop body (ap.py, lines 89-103) *)

Definition pdf_line (height : Z) (st : canvas * Z) (line : str) : canvas * Z :=
  let '(c, y) := st in
  let '(c, y) := if y <? 40 then (showPage c, height - 40) else (c, y) in
  if startswith line (lit "###") then
    let c := setFont c (lit "Helvetica-Bold") 14 in
    let c := drawString c 40 y (strip (replace line (lit "###") [])) in
    (c, y - 20)
  else if startswith line (lit "-") then
    let c := setFont c (lit "Helvetica") 12 in
    let c := drawString c 50 y
               (bullet_prefix ++ strip (replace line (lit "-") [])) in
    (c, y - 15)
  else
    let c := setFont c (lit "Helvetica") 12 in
    let c := drawString c 40 y (strip line) in
    (c, y - 15).

(** ** The two renderers *)

Section Renderers.

(** The serialised form and the two serialisers of the libraries:
    [doc.save(buffer); buffer.getvalue()] and, after [c.save()],
    [buffer.getvalue()]. *)
Variable bytes : Type.
Variable docx_bytes : document -> bytes.
Variable pdf_bytes : canvas -> bytes.

(** [reportlab.lib.pagesizes.letter], a pair (width, height). *)
Variable letter : Z * Z.

(** The document [create_docx] has built when it calls [doc.save]. *)
Definition create_docx_document (resume_text name : str) : result document :=
  create_docx_in python_docx resume_text name.

Definition create_docx (resume_text name : str) : result bytes :=
  doc <- create_docx_document resume_text name ;;
  Ok (docx_bytes doc).

(** The canvas [create_pdf] has drawn when it reads the buffer. *)
Definition create_pdf_canvas (resume_text name : str) : result canvas :=
  let c := Canvas in
  let '(width, height) := letter in
  let y := height - 40 in
  let c := setFont c (lit "Helvetica-Bold") 16 in
  let c := drawString c 40 y (name ++ lit "'s Resume") in
  let y := y - 30 in
  let c := setFont c (lit "Helvetica") 12 in
  lines <- split resume_text newline ;;
  let '(c, y) := fold_left (pdf_line height) lines (c, y) in
  let c := showPage c in
  let c := save c in
  Ok c.

Definition create_pdf (resume_text name : str) : result bytes :=
  c <- create_pdf_canvas resume_text name ;;
  Ok (pdf_bytes c).

End Renderers.

(** Modelled from the spec: the page size of the canvas library, which is
    not part of the source file; "standard letter size", 8.5 by 11 inches
    at 72 units an inch. *)
Definition letter_size : Z * Z := (612, 792).

(** ** Classified lines *)

Inductive LineKind : Type :=
| Heading
| Bullet
| Paragraph.

Record ClassifiedLine : Type := mkLine { kind : LineKind; content : str }.

Fixpoint str_eqb (a b : str) : bool :=
  match a, b with
  | [], [] => true
  | x :: a', y :: b' => char_eqb x y && str_eqb a' b'
  | _, _ => false
  end.

(** The classified line a document element stands for: a heading element,
    a paragraph in a list style, a paragraph without style. *)
Definition docx_view (e : element) : ClassifiedLine :=
  match e with
  | HeadingElt text _ => mkLine Heading text
  | ParagraphElt text (Some _) => mkLine Bullet text
  | ParagraphElt text None => mkLine Paragraph text
  end.

(** The calls one iteration of [create_docx] makes for a line: what a
    library that accepts everything has in its document afterwards. *)
Definition docx_calls (line : str) : document :=
  match docx_line recorder Document line with
  | Ok doc => doc
  | Raise _ => []
  end.

(** What one iteration of [create_docx] renders, as classified lines. *)
Definition docx_classify_line (line : str) : list ClassifiedLine :=
  List.map docx_view (docx_calls line).

(** The classified lines a sequence of canvas calls stands for: each
    [setFont] followed by a [drawString] is one line, a heading in the bold
    font, a bullet at the indent 50 (its text after [bullet_prefix]), a
    paragraph otherwise. *)
Fixpoint pdf_view (ops : list op) : list ClassifiedLine :=
  match ops with
  | [] => []
  | SetFont f _ :: rest =>
      match rest with
      | DrawString x _ text :: _ =>
          (if str_eqb f (lit "Helvetica-Bold") then mkLine Heading text
           else if x =? 50 then
             mkLine Bullet (skipn (List.length bullet_prefix) text)
           else mkLine Paragraph text) :: pdf_view rest
      | _ => pdf_view rest
      end
  | _ :: rest => pdf_view rest
  end.

(** The calls one iteration of [create_pdf] makes with the cursor at [y]. *)
Definition pdf_line_ops (height y : Z) (line : str) : list op :=
  fst (pdf_line height (Canvas, y) line).

(** What one iteration of [create_pdf] renders, as classified lines. *)
Definition pdf_classify_line (height y : Z) (line : str)
  : list ClassifiedLine :=
  pdf_view (pdf_line_ops height y line).

(** Where one iteration of [create_pdf] draws, from the cursor it finds. *)
Definition pdf_draw_position (height y : Z) : Z :=
  if y <? 40 then height - 40 else y.

(** How far one iteration of [create_pdf] moves the cursor down, from the
    position it draws at. *)
Definition pdf_advance (height y : Z) (line : str) : Z :=
  pdf_draw_position height y - snd (pdf_line height (Canvas, y) line).

(** The fonts, indents and texts of the [drawString] calls. *)
Fixpoint drawn (font : str * Z) (ops : list op)
  : list ((str * Z) * Z * Z * str) :=
  match ops with
  | [] => []
  | SetFont f size :: rest => drawn (f, size) rest
  | DrawString x y text :: rest => (font, x, y, text) :: drawn font rest
  | _ :: rest => drawn font rest
  end.


Definition is_showPage (o : op) : bool :=
  match o with
  | ShowPage => true
  | _ => false
  end.

(** No text below the bottom margin. *)
Definition above_margin (o : op) : Prop :=
  match o with
  | DrawString _ y _ => 40 <= y
  | _ => True
  end.

(** The newlines of a text. *)
Definition count_newlines (s : str) : nat :=
  List.length (List.filter (fun c => char_eqb c 10%N) s).

(** The calls the iterations make for the lines of a text, from the cursor
    the first line finds. *)
Fixpoint pdf_lines_ops (height y : Z) (lines : list str) : list op :=
  match lines with
  | [] => []
  | l :: ls =>
      pdf_line_ops height y l
      ++ pdf_lines_ops height (snd (pdf_line height (Canvas, y) l)) ls
  end.

(** The cursors the lines of a text find, one after the other. *)
Fixpoint pdf_cursors (height y : Z) (lines : list str) : list Z :=
  match lines with
  | [] => []
  | l :: ls => y :: pdf_cursors height (snd (pdf_line height (Canvas, y) l)) ls
  end.


(** ** The classifier as the specification words it *)

Module Spec.

Definition heading_marker : str := lit "###".
Definition bullet_marker : str := lit "-".

(** "one following separator" *)
Definition drop_separator (s : str) : str :=
  match s with
  | c :: s' => if isspace c then s' else s
  | [] => []
  end.

(** "(1) if trimmed content starts with a heading marker, emit Heading with
    marker and surrounding whitespace stripped; (2) else if it starts with
    a bullet marker, emit Bullet with the marker and one following
    separator stripped; (3) else emit Paragraph with leading/trailing
    whitespace stripped." *)
Definition classify_line (line : str) : ClassifiedLine :=
  let trimmed := strip line in
  if startswith trimmed heading_marker then
    mkLine Heading (strip (skipn (List.length heading_marker) trimmed))
  else if startswith trimmed bullet_marker then
    mkLine Bullet
      (drop_separator (skipn (List.length bullet_marker) trimmed))
  else
    mkLine Paragraph (strip line).

(** "Split input on line boundaries", one classified line per line. *)
Definition classify (rawText : str) : list ClassifiedLine :=
  List.map classify_line (split_from newline O rawText).

(** The step sizes "larger", "smaller", "smallest" ask for. *)
Definition strictly_ordered (heading bullet paragraph : Z) : Prop :=
  paragraph < bullet /\ bullet < heading.

End Spec.

(** ** Pages and texts of the rendered output *)

(** The pages a canvas has ended with [showPage]. *)
Definition page_count (c : canvas) : nat :=
  List.length (List.filter is_showPage c).

(** Whether every [showPage] ends a page on which [drawString] was
    called, be it with an empty text; [drawn_on_page] says whether it was
    on the page in progress. *)
Fixpoint every_page_drawn (drawn_on_page : bool) (ops : list op) : bool :=
  match ops with
  | [] => true
  | ShowPage :: rest => drawn_on_page && every_page_drawn false rest
  | DrawString _ _ _ :: rest => every_page_drawn true rest
  | _ :: rest => every_page_drawn drawn_on_page rest
  end.

(** A text at one of the two indents and not above the top margin. *)
Definition within_page (height : Z) (o : op) : Prop :=
  match o with
  | DrawString x y _ => (x = 40 \/ x = 50) /\ y <= height - 40
  | _ => True
  end.

Definition element_text (e : element) : str :=
  match e with
  | HeadingElt text _ => text
  | ParagraphElt text _ => text
  end.

(** No white space at either end. *)
Definition trimmed (s : str) : Prop :=
  s = [] \/ (isspace (hd 0%N s) = false /\ isspace (last s 0%N) = false).

(** No line break inside. *)
Definition one_line (s : str) : Prop := Forall (fun c => c <> 10%N) s.

(** ** The application: [generate_resume] and the form handling of [main] *)

Module App.

(** The values the dictionaries of the form hold, and an integer, which
    the thousands separator of the salary asks for. *)
Inductive value : Type :=
| VStr (s : str)
| VInt (n : Z).

(** A dictionary with string keys, in insertion order. *)
Definition dict := list (str * value).

(** The exceptions of this code: a missing key, the format specification
    [,] applied to a [str] (a [ValueError]), an exception of a renderer,
    and whatever the model library raises. *)
Inductive exception : Type :=
| KeyError (key : str)
| FormatError
| RendererError (e : exn)
| LibraryError (what : str).

Inductive outcome (A : Type) : Type :=
| Returned (a : A)
| Raised (e : exception).
Arguments Returned {A} a.
Arguments Raised {A} e.

Definition and_then {A B : Type} (m : outcome A) (k : A -> outcome B)
  : outcome B :=
  match m with
  | Returned a => k a
  | Raised e => Raised e
  end.

Notation "'try' x := m 'in' k" := (and_then m (fun x => k))
  (at level 10, x name, m at level 100, k at level 200).

(** [d[key]] *)
Fixpoint getitem (d : dict) (key : str) : outcome value :=
  match d with
  | [] => Raised (KeyError key)
  | (k, v) :: d' => if str_eqb k key then Returned v else getitem d' key
  end.

(** The truth value of a string in a condition. *)
Definition truthy (s : str) : bool :=
  match s with
  | [] => false
  | _ :: _ => true
  end.

Fixpoint uint_digits (u : Decimal.uint) : str :=
  match u with
  | Decimal.Nil => []
  | Decimal.D0 u => 48%N :: uint_digits u
  | Decimal.D1 u => 49%N :: uint_digits u
  | Decimal.D2 u => 50%N :: uint_digits u
  | Decimal.D3 u => 51%N :: uint_digits u
  | Decimal.D4 u => 52%N :: uint_digits u
  | Decimal.D5 u => 53%N :: uint_digits u
  | Decimal.D6 u => 54%N :: uint_digits u
  | Decimal.D7 u => 55%N :: uint_digits u
  | Decimal.D8 u => 56%N :: uint_digits u
  | Decimal.D9 u => 57%N :: uint_digits u
  end.

(** The decimal digits of the absolute value. *)
Definition digits (n : Z) : str :=
  match Z.to_int n with
  | Decimal.Pos u => uint_digits u
  | Decimal.Neg u => uint_digits u
  end.

Definition sign (n : Z) : str := if n <? 0 then lit "-" else [].

(** A comma before every group of three digits, from the right. *)
Fixpoint with_commas (ds : str) : str :=
  match ds with
  | [] => []
  | d :: rest =>
      d :: (if (negb (Nat.eqb (List.length rest) 0)
                && Nat.eqb (Nat.modulo (List.length rest) 3) 0)%bool
            then 44%N :: with_commas rest
            else with_commas rest)
  end.

(** [{v}] in an f-string *)
Definition format_plain (v : value) : str :=
  match v with
  | VStr s => s
  | VInt n => sign n ++ digits n
  end.

(** [{v:,}] in an f-string *)
Definition format_comma (v : value) : outcome str :=
  match v with
  | VStr _ => Raised FormatError
  | VInt n => Returned (sign n ++ with_commas (digits n))
  end.

(** A list comprehension whose element expression can raise. *)
Fixpoint comprehension {A B : Type} (f : A -> outcome B) (l : list A)
  : outcome (list B) :=
  match l with
  | [] => Returned []
  | a :: l' =>
      try b := f a in
      try bs := comprehension f l' in
      Returned (b :: bs)
  end.

(** The f-string of one job (ap.py, line 31). *)
Definition experience_entry (job : dict) : outcome str :=
  try position := getitem job (lit "position") in
  try company := getitem job (lit "company") in
  try location := getitem job (lit "location") in
  try date_joined := getitem job (lit "date_joined") in
  try date_left := getitem job (lit "date_left") in
  try problems_solved := getitem job (lit "problems_solved") in
  try salary := getitem job (lit "salary") in
  try salary_text := format_comma salary in
  Returned
    (lit "- **" ++ format_plain position ++ lit "** at "
     ++ format_plain company ++ lit ", " ++ format_plain location
     ++ lit ", " ++ format_plain date_joined ++ lit " to "
     ++ format_plain date_left ++ newline
     ++ lit "  - Problems Solved: " ++ format_plain problems_solved
     ++ newline ++ lit "  - Salary: $" ++ salary_text ++ newline
     ++ lit "  - Achievements: [Infer 2-3 achievements based on problems solved]").

(** The f-string of one education entry (ap.py, line 36). *)
Definition education_entry (edu : dict) : outcome str :=
  try subject := getitem edu (lit "subject") in
  try institution := getitem edu (lit "institution") in
  try date_joined := getitem edu (lit "date_joined") in
  try completion_date := getitem edu (lit "completion_date") in
  try grade := getitem edu (lit "grade") in
  Returned
    (lit "- **" ++ format_plain subject ++ lit "**, "
     ++ format_plain institution ++ lit " (inferred), "
     ++ format_plain date_joined ++ lit " to "
     ++ format_plain completion_date ++ lit ", Grade: "
     ++ format_plain grade).

(** What the code takes from outside: the model library, the case mapping
    of the runtime, the text of an exception, and the serialisers and the
    page size of the two document libraries. *)
Record Library : Type := {
  Model : Type;
  Response : Type;
  GenerativeModel : str -> outcome Model;
  generate_content : Model -> str -> outcome Response;
  response_text : Response -> outcome str;
  lower : str -> str;
  exception_str : exception -> str;
  bytes : Type;
  docx_bytes : document -> bytes;
  pdf_bytes : canvas -> bytes;
  letter : Z * Z
}.

(** The widgets of one job and of one education entry, as filled in. *)
Record JobWidgets : Type := {
  company : str;
  location : str;
  job_date_joined : str;
  date_left : str;
  position : str;
  problems_solved : str;
  salary : str
}.

Record EducationWidgets : Type := {
  subject : str;
  institution : str;
  edu_date_joined : str;
  completion_date : str;
  grade : str
}.

(** The values of the widgets of one run of [main]. *)
Record Form : Type := {
  download_format : str;
  name : str;
  skills : str;
  job_type : str;
  tone : str;
  length : str;
  job_widgets : nat -> JobWidgets;
  education_widgets : nat -> EducationWidgets;
  submit_button : bool
}.

Section WithLibrary.

Variable L : Library.

(** The calls that are observed: into the model library and into the
    display.  Calls that lay out fixed text or declare a widget are not
    recorded. *)
Inductive event : Type :=
| Call_GenerativeModel (model_name : str)
| Call_generate_content (prompt : str)
| St_error (body : str)
| St_success (body : str)
| St_subheader (body : str)
| St_markdown (body : str)
| St_download_button (label : str) (data : bytes L) (file_name mime : str).

(** A computation that appends to the trace of calls and returns or
    raises. *)
Definition io (A : Type) : Type := list event -> outcome A * list event.

Definition io_ret {A : Type} (a : A) : io A := fun tr => (Returned a, tr).

Definition io_bind {A B : Type} (m : io A) (k : A -> io B) : io B :=
  fun tr =>
    match m tr with
    | (Returned a, tr') => k a tr'
    | (Raised e, tr') => (Raised e, tr')
    end.

Definition emit (ev : event) : io unit := fun tr => (Returned tt, tr ++ [ev]).

Definition lift {A : Type} (m : outcome A) : io A := fun tr => (m, tr).

Notation "'do' x := m 'in' k" := (io_bind m (fun x => k))
  (at level 10, x name, m at level 100, k at level 200).

(** The prompt (ap.py, lines 39-56). *)
Definition prompt_text
  (name education_str experience_str job_type tone length skills : str)
  : str :=
  newline
  ++ lit "        You are an expert resume writer. Create a "
  ++ length
  ++ lit "-length resume for "
  ++ name
  ++ lit " with the following details:"
  ++ newline
  ++ lit "        - Education: "
  ++ education_str
  ++ newline
  ++ lit "        - Experience: "
  ++ experience_str
  ++ newline
  ++ lit "        - Job Type: "
  ++ job_type
  ++ newline
  ++ lit "        - Skills: "
  ++ skills
  ++ newline
  ++ lit "        - Tone: "
  ++ tone
  ++ newline
  ++ newline
  ++ lit "        The resume should be highly professional, well-structured, and tailored for the "
  ++ job_type
  ++ lit " role. Include the following sections:"
  ++ newline
  ++ lit "        1. **Personal Information**: Include the name, a professional email (e.g., "
  ++ replace (lower L name) (lit " ") (lit ".")
  ++ lit "@email.com), and a phone number (e.g., +1-555-123-4567)."
  ++ newline
  ++ lit "        2. **Professional Summary**: A concise 3-4 sentence summary highlighting the candidate's experience, skills, and career goals tailored for the "
  ++ job_type
  ++ lit " role."
  ++ newline
  ++ lit "        3. **Skills**: List the provided skills ("
  ++ skills
  ++ lit ") and infer additional relevant skills for the "
  ++ job_type
  ++ lit " role."
  ++ newline
  ++ lit "        4. **Experience**: Format each experience entry with the job title, company name, location, date range, problems solved, salary, and 2-3 bullet points detailing achievements inferred from problems solved."
  ++ newline
  ++ lit "        5. **Education**: Format each education entry with the subject, institution (inferred), date range, and grade."
  ++ newline
  ++ lit "        6. **Certifications** (optional): Infer relevant certifications for the "
  ++ job_type
  ++ lit " role if applicable."
  ++ newline
  ++ newline
  ++ lit "        Use clear, concise, and action-oriented language. Avoid generic phrases unless supported by specific achievements. Format the resume as plain text with clear section headers (e.g., ### Personal Information) and bullet points for readability."
  ++ newline
  ++ lit "        ".

(** The body of the [try] of [generate_resume] (ap.py, lines 28-58). *)
Definition generate_resume_try
  (name : str) (jobs educations : list dict)
  (job_type tone length skills : str) : io str :=
  do _ := emit (Call_GenerativeModel (lit "gemini-2.0-flash")) in
  do model := lift (GenerativeModel L (lit "gemini-2.0-flash")) in
  do experience := lift (comprehension experience_entry jobs) in
  let experience_str := join newline experience in
  do education := lift (comprehension education_entry educations) in
  let education_str := join newline education in
  let prompt :=
    prompt_text name education_str experience_str job_type tone length
      skills in
  do _ := emit (Call_generate_content prompt) in
  do response := lift (generate_content L model prompt) in
  lift (response_text L response).

(** [generate_resume] (ap.py, lines 26-61): any exception is shown and
    [None] returned. *)
Definition generate_resume
  (name : str) (jobs educations : list dict)
  (job_type tone length skills : str)
  : list event -> option str * list event :=
  fun tr =>
    match generate_resume_try name jobs educations job_type tone length
            skills tr with
    | (Returned text, tr') => (Some text, tr')
    | (Raised e, tr') =>
        (None,
         tr' ++ [St_error (lit "Error generating resume: "
                           ++ exception_str L e)])
    end.

(** One turn of the loop over the jobs of the form (ap.py, lines
    218-236). *)
Definition main_jobs_step (widgets : nat -> JobWidgets) (jobs : list dict)
  (i : nat) : list dict :=
  let w := widgets i in
  if (truthy (company w) && truthy (location w)
      && truthy (job_date_joined w) && truthy (date_left w)
      && truthy (position w) && truthy (problems_solved w)
      && truthy (salary w))%bool
  then
    jobs ++ [[(lit "company", VStr (company w));
              (lit "location", VStr (location w));
              (lit "date_joined", VStr (job_date_joined w));
              (lit "date_left", VStr (date_left w));
              (lit "position", VStr (position w));
              (lit "problems_solved", VStr (problems_solved w));
              (lit "salary", VStr (salary w))]]
  else jobs.

Definition main_jobs (widgets : nat -> JobWidgets) : list dict :=
  fold_left (main_jobs_step widgets) (seq 0 4) [].

(** One turn of the loop over the education entries (ap.py, lines
    241-255). *)
Definition main_educations_step (widgets : nat -> EducationWidgets)
  (educations : list dict) (i : nat) : list dict :=
  let w := widgets i in
  if (truthy (subject w) && truthy (institution w)
      && truthy (edu_date_joined w) && truthy (completion_date w)
      && truthy (grade w))%bool
  then
    educations ++ [[(lit "subject", VStr (subject w));
                    (lit "institution", VStr (institution w));
                    (lit "date_joined", VStr (edu_date_joined w));
                    (lit "completion_date", VStr (completion_date w));
                    (lit "grade", VStr (grade w))]]
  else educations.

Definition main_educations (widgets : nat -> EducationWidgets) : list dict :=
  fold_left (main_educations_step widgets) (seq 0 2) [].

(** A renderer called from [main]: what it raises goes on. *)
Definition of_result {A : Type} (r : result A) : outcome A :=
  match r with
  | Ok a => Returned a
  | Raise e => Raised (RendererError e)
  end.

Definition nonempty {A : Type} (l : list A) : bool :=
  match l with
  | [] => false
  | _ :: _ => true
  end.

(** The handling of the form of [main] (ap.py, lines 217-287): the two
    lists, and what a press of the button does. *)
Definition main_submit (form : Form) : io unit :=
  let jobs := main_jobs (job_widgets form) in
  let educations := main_educations (education_widgets form) in
  if submit_button form then
    if (truthy (name form) && truthy (skills form)
        && truthy (job_type form) && nonempty jobs
        && nonempty educations)%bool
    then
      fun tr =>
        let '(resume, tr) :=
          generate_resume (name form) jobs educations (job_type form)
            (tone form) (length form) (skills form) tr in
        match resume with
        | Some text =>
            if truthy text then
              (do _ := emit (St_success (lit "Resume generated successfully!")) in
               do _ := emit (St_subheader (lit "Your Resume")) in
               do _ := emit (St_markdown text) in
               do file :=
                 (if str_eqb (download_format form) (lit "PDF") then
                    do resume_file :=
                      lift (of_result
                              (create_pdf (bytes L) (pdf_bytes L) (letter L)
                                 text (name form))) in
                    io_ret (resume_file, lit "pdf")
                  else
                    do resume_file :=
                      lift (of_result
                              (create_docx (bytes L) (docx_bytes L)
                                 text (name form))) in
                    io_ret (resume_file, lit "docx")) in
               let '(resume_file, file_extension) := file in
               emit (St_download_button
                       (lit "Download Resume as " ++ download_format form)
                       resume_file
                       (name form ++ lit "_resume." ++ file_extension)
                       (lit "application/" ++ file_extension))) tr
            else (Returned tt, tr)
        | None => (Returned tt, tr)
        end
    else
      emit (St_error (lit "Please fill in all required fields marked with * for at least one job and one education entry."))
  else io_ret tt.

End WithLibrary.

Arguments Call_GenerativeModel {L} model_name.
Arguments Call_generate_content {L} prompt.
Arguments St_error {L} body.
Arguments St_success {L} body.
Arguments St_subheader {L} body.
Arguments St_markdown {L} body.
Arguments St_download_button {L} label data file_name mime.

(** The condition and the dictionary of one turn of each loop of the
    form, on their own. *)
Definition job_complete (w : JobWidgets) : bool :=
  (truthy (company w) && truthy (location w)
   && truthy (job_date_joined w) && truthy (date_left w)
   && truthy (position w) && truthy (problems_solved w)
   && truthy (salary w))%bool.

Definition job_record (w : JobWidgets) : dict :=
  [(lit "company", VStr (company w));
   (lit "location", VStr (location w));
   (lit "date_joined", VStr (job_date_joined w));
   (lit "date_left", VStr (date_left w));
   (lit "position", VStr (position w));
   (lit "problems_solved", VStr (problems_solved w));
   (lit "salary", VStr (salary w))].

Definition education_complete (w : EducationWidgets) : bool :=
  (truthy (subject w) && truthy (institution w)
   && truthy (edu_date_joined w) && truthy (completion_date w)
   && truthy (grade w))%bool.

Definition education_record (w : EducationWidgets) : dict :=
  [(lit "subject", VStr (subject w));
   (lit "institution", VStr (institution w));
   (lit "date_joined", VStr (edu_date_joined w));
   (lit "completion_date", VStr (completion_date w));
   (lit "grade", VStr (grade w))].

(** A dictionary with a value under each of the keys. *)
Definition has_keys (keys : list str) (d : dict) : Prop :=
  Forall (fun key => exists v, getitem d key = Returned v) keys.

(** An entry of each kind, filled in as the placeholders of the form
    suggest. *)
Definition sample_job : JobWidgets :=
  {| company := lit "ABC Corp";
     location := lit "New York, NY";
     job_date_joined := lit "2022-01";
     date_left := lit "2023-12";
     position := lit "Software Developer";
     problems_solved := lit "Optimized database queries";
     salary := lit "80000" |}.

Definition sample_education : EducationWidgets :=
  {| subject := lit "Computer Science";
     institution := lit "XYZ University";
     edu_date_joined := lit "2018-09";
     completion_date := lit "2022-06";
     grade := lit "3.8/4.0" |}.

(** The job of [sample_job] as a caller with a numeric salary would pass
    it. *)
Definition sample_paid_job : dict :=
  [(lit "company", VStr (lit "ABC Corp"));
   (lit "location", VStr (lit "New York, NY"));
   (lit "date_joined", VStr (lit "2022-01"));
   (lit "date_left", VStr (lit "2023-12"));
   (lit "position", VStr (lit "Software Developer"));
   (lit "problems_solved", VStr (lit "Optimized database queries"));
   (lit "salary", VInt 80000)].

(** A model library for runs: it answers every prompt with one text. *)
Definition answering_library (answer : str) : Library :=
  {| Model := unit;
     Response := unit;
     GenerativeModel := fun _ => Returned tt;
     generate_content := fun _ _ => Returned tt;
     response_text := fun _ => Returned answer;
     lower := fun s => s;
     exception_str := fun _ => [];
     bytes := document + canvas;
     docx_bytes := inl;
     pdf_bytes := inr;
     letter := letter_size |}.

End App.

(** ** Runs on concrete inputs *)

Example strip_example :
  strip (lit "  a b " ++ [9%N]) = lit "a b".
Proof. reflexivity. Qed.

Example replace_example :
  replace (lit "### A ### B") (lit "###") [] = lit " A  B".
Proof. reflexivity. Qed.

Example replace_overlap : replace (lit "aaaa") (lit "aa") (lit "b") = lit "bb".
Proof. reflexivity. Qed.

Example replace_empty_old : replace (lit "ab") [] (lit "-") = lit "-a-b-".
Proof. reflexivity. Qed.

Example split_example :
  split (lit "ab" ++ newline ++ newline ++ lit "c" ++ newline) newline
  = Ok [lit "ab"; []; lit "c"; []].
Proof. reflexivity. Qed.

Example split_long_sep :
  split (lit "a, b,c, ") (lit ", ") = Ok [lit "a"; lit "b,c"; []].
Proof. reflexivity. Qed.

Example split_empty_sep : split (lit "ab") [] = Raise ValueError.
Proof. reflexivity. Qed.

Example spec_classify_example :
  Spec.classify
    (lit "### Summary" ++ newline ++ lit "- Did X" ++ newline ++ lit "Plain text")
  = [mkLine Heading (lit "Summary"); mkLine Bullet (lit "Did X");
     mkLine Paragraph (lit "Plain text")].
Proof. reflexivity. Qed.

Example pdf_line_example :
  pdf_line 792 (Canvas, 722) (lit "- Did X")
  = ([SetFont (lit "Helvetica") 12;
      DrawString 50 722 (bullet_prefix ++ lit "Did X")], 707).
Proof. reflexivity. Qed.

Example format_comma_examples :
  App.format_comma (App.VInt 80000) = App.Returned (lit "80,000")
  /\ App.format_comma (App.VInt 1234567) = App.Returned (lit "1,234,567")
  /\ App.format_comma (App.VInt (-1234)) = App.Returned (lit "-1,234")
  /\ App.format_comma (App.VInt 0) = App.Returned (lit "0")
  /\ App.format_comma (App.VInt 999) = App.Returned (lit "999")
  /\ App.format_comma (App.VStr (lit "80000")) = App.Raised App.FormatError.
Proof. repeat split; reflexivity. Qed.

Example experience_entry_example :
  App.experience_entry App.sample_paid_job
  = App.Returned
      (lit "- **Software Developer** at ABC Corp, New York, NY, 2022-01 to 2023-12"
       ++ newline ++ lit "  - Problems Solved: Optimized database queries"
       ++ newline ++ lit "  - Salary: $80,000"
       ++ newline
       ++ lit "  - Achievements: [Infer 2-3 achievements based on problems solved]").
Proof. reflexivity. Qed.

Example education_entry_example :
  App.education_entry (App.education_record App.sample_education)
  = App.Returned
      (lit "- **Computer Science**, XYZ University (inferred), 2018-09 to 2022-06, Grade: 3.8/4.0").
Proof. reflexivity. Qed.

Example pdf_line_break_example :
  pdf_line 792 (Canvas, 37) (lit "### Skills")
  = ([ShowPage; SetFont (lit "Helvetica-Bold") 14;
      DrawString 40 752 (lit "Skills")], 732).
Proof. reflexivity. Qed.

(** ** Facts about the string methods *)

Lemma startswith_cons (a b : char) (s p : str) :
  startswith (a :: s) (b :: p) = char_eqb a b && startswith s p.
Proof. reflexivity. Qed.

Lemma startswith_firstn (s p : str) :
  startswith s p = startswith (firstn (List.length p) s) p.
Proof.
  revert s; induction p as [|b p IH]; intros s; [reflexivity|].
  destruct s as [|a s]; [reflexivity|].
  cbn [List.length firstn]. rewrite !startswith_cons, <- IH. reflexivity.
Qed.

Lemma firstn_firstn_le {A : Type} (n m : nat) (s : list A) :
  (n <= m)%nat -> firstn n (firstn m s) = firstn n s.
Proof.
  intros H. rewrite firstn_firstn. f_equal. lia.
Qed.





(** ** The pieces of [split] *)

Lemma split_from_newline_cons (c : char) (s : str) :
  split_from newline O (c :: s) =
  if char_eqb c 10%N then [] :: split_from newline O s
  else match split_from newline O s with
       | [] => [[c]]
       | piece :: pieces => (c :: piece) :: pieces
       end.
Proof.
  cbn [split_from newline startswith List.length Nat.pred].
  rewrite andb_true_r. reflexivity.
Qed.

Lemma split_from_not_nil (sep : str) (k : nat) (s : str) :
  split_from sep k s <> [].
Proof.
  revert k; induction s as [|c s IH]; intros k; cbn [split_from].
  - discriminate.
  - destruct k as [|k]; [|apply IH].
    destruct (startswith (c :: s) sep); [discriminate|].
    destruct (split_from sep 0 s); discriminate.
Qed.

Lemma split_from_newline_length (s : str) :
  List.length (split_from newline O s) = S (count_newlines s).
Proof.
  unfold count_newlines.
  induction s as [|c s IH]; [reflexivity|].
  rewrite split_from_newline_cons. cbn [List.filter].
  destruct (char_eqb c 10%N).
  - cbn [List.length]. now rewrite IH.
  - destruct (split_from newline O s) as [|p ps] eqn:E.
    + now apply split_from_not_nil in E.
    + cbn [List.length] in *. exact IH.
Qed.


(** No piece holds a newline. *)
Lemma split_from_newline_free (s : str) :
  Forall (fun piece => count_newlines piece = O) (split_from newline O s).
Proof.
  induction s as [|c s IH]; [repeat constructor|].
  rewrite split_from_newline_cons.
  destruct (char_eqb c 10%N) eqn:Hc.
  - constructor; [reflexivity|exact IH].
  - destruct (split_from newline O s) as [|p ps] eqn:E.
    + repeat constructor. unfold count_newlines. cbn. now rewrite Hc.
    + inversion IH as [|? ? Hp Hps]; subst. constructor; [|exact Hps].
      unfold count_newlines in *. cbn. now rewrite Hc.
Qed.

Lemma split_newline_ok (s : str) :
  split s newline = Ok (split_from newline O s).
Proof. reflexivity. Qed.

(** ** The loop bodies append to what is already there *)

Lemma docx_calls_eq (line : str) :
  docx_calls line =
  if startswith line (lit "###") then
    [HeadingElt (strip (replace line (lit "###") [])) 1]
  else if startswith line (lit "-") then
    [ParagraphElt (strip line) (Some (lit "ListBullet"))]
  else [ParagraphElt (strip line) None].
Proof.
  unfold docx_calls, docx_line, add_heading, add_paragraph, recorder.
  destruct (startswith line (lit "###")); [reflexivity|].
  destruct (startswith line (lit "-")); reflexivity.
Qed.

(** One iteration with any library: the call is made, and added unless
    the library refuses it. *)
Lemma docx_line_eq (lib : library) (doc : document) (line : str) :
  docx_line lib doc line
  = if forallb lib (docx_calls line) then Ok (doc ++ docx_calls line)
    else Raise ValueError.
Proof.
  rewrite docx_calls_eq. unfold docx_line, add_heading, add_paragraph.
  destruct (startswith line (lit "###")); cbn [forallb];
    [rewrite andb_true_r; reflexivity|].
  destruct (startswith line (lit "-")); cbn [forallb];
    rewrite andb_true_r; reflexivity.
Qed.

Lemma docx_lines_eq (lib : library) (lines : list str) (doc : document) :
  docx_lines lib doc lines
  = if forallb lib (flat_map docx_calls lines)
    then Ok (doc ++ flat_map docx_calls lines)
    else Raise ValueError.
Proof.
  revert doc; induction lines as [|l lines IH]; intros doc;
    cbn [docx_lines flat_map forallb].
  - now rewrite app_nil_r.
  - rewrite docx_line_eq, forallb_app.
    destruct (forallb lib (docx_calls l)); cbn [bind andb]; [|reflexivity].
    rewrite IH, <- app_assoc. reflexivity.
Qed.



Lemma pdf_line_app (height : Z) (c : canvas) (y : Z) (line : str) :
  pdf_line height (c, y) line
  = (c ++ pdf_line_ops height y line,
     snd (pdf_line height (Canvas, y) line)).
Proof.
  unfold pdf_line_ops, pdf_line, showPage, setFont, drawString, Canvas.
  destruct (y <? 40);
    destruct (startswith line (lit "###"));
    try destruct (startswith line (lit "-"));
    cbn [fst snd app]; rewrite <- ?app_assoc; reflexivity.
Qed.

Lemma fold_pdf_line (height : Z) (lines : list str) (c : canvas) (y : Z) :
  fst (fold_left (pdf_line height) lines (c, y))
  = c ++ pdf_lines_ops height y lines.
Proof.
  revert c y; induction lines as [|l ls IH]; intros c y;
    cbn [fold_left pdf_lines_ops fst].
  - now rewrite app_nil_r.
  - rewrite pdf_line_app, IH, <- app_assoc. reflexivity.
Qed.

(** ** What one iteration renders *)

Lemma docx_classify_line_eq (line : str) :
  docx_classify_line line =
  if startswith line (lit "###") then
    [mkLine Heading (strip (replace line (lit "###") []))]
  else if startswith line (lit "-") then [mkLine Bullet (strip line)]
  else [mkLine Paragraph (strip line)].
Proof.
  unfold docx_classify_line. rewrite docx_calls_eq.
  destruct (startswith line (lit "###")); [reflexivity|].
  destruct (startswith line (lit "-")); reflexivity.
Qed.

Lemma pdf_classify_line_eq (height y : Z) (line : str) :
  pdf_classify_line height y line =
  if startswith line (lit "###") then
    [mkLine Heading (strip (replace line (lit "###") []))]
  else if startswith line (lit "-") then
    [mkLine Bullet (strip (replace line (lit "-") []))]
  else [mkLine Paragraph (strip line)].
Proof.
  unfold pdf_classify_line, pdf_line_ops, pdf_line.
  destruct (y <? 40);
    destruct (startswith line (lit "###"));
    try destruct (startswith line (lit "-")); reflexivity.
Qed.

Lemma pdf_view_line_app (height y : Z) (line : str) (rest : list op) :
  pdf_view (pdf_line_ops height y line ++ rest)
  = pdf_classify_line height y line ++ pdf_view rest.
Proof.
  unfold pdf_classify_line, pdf_line_ops, pdf_line.
  destruct (y <? 40);
    destruct (startswith line (lit "###"));
    try destruct (startswith line (lit "-")); reflexivity.
Qed.

Lemma pdf_view_lines (height y : Z) (lines : list str) :
  pdf_view (pdf_lines_ops height y lines)
  = flat_map (pdf_classify_line height 0) lines.
Proof.
  revert y; induction lines as [|l ls IH]; intros y; [reflexivity|].
  cbn [pdf_lines_ops flat_map].
  rewrite pdf_view_line_app, IH, (pdf_classify_line_eq height y),
    (pdf_classify_line_eq height 0). reflexivity.
Qed.




Lemma flat_map_docx_view (lines : list str) :
  List.map docx_view (flat_map docx_calls lines)
  = flat_map docx_classify_line lines.
Proof.
  induction lines as [|l ls IH]; [reflexivity|].
  cbn [flat_map]. rewrite List.map_app, IH. reflexivity.
Qed.

(** ** The whole of each renderer *)

(** [create_docx] with any library: the title and one call for each line,
    unless the library refuses one of them. *)
Lemma create_docx_in_eq (lib : library) (resume_text name : str) :
  create_docx_in lib resume_text name
  = if forallb lib
         (HeadingElt (name ++ lit "'s Resume") 0
          :: flat_map docx_calls (split_from newline O resume_text))
    then Ok (HeadingElt (name ++ lit "'s Resume") 0
             :: flat_map docx_calls (split_from newline O resume_text))
    else Raise ValueError.
Proof.
  unfold create_docx_in, add_heading, Document. cbn [forallb].
  destruct (lib (HeadingElt (name ++ lit "'s Resume") 0));
    cbn [bind andb app]; [|reflexivity].
  rewrite split_newline_ok. cbn [bind]. rewrite docx_lines_eq.
  reflexivity.
Qed.

Lemma create_docx_calls_eq (resume_text name : str) :
  create_docx_in recorder resume_text name
  = Ok (HeadingElt (name ++ lit "'s Resume") 0
        :: flat_map docx_calls (split_from newline O resume_text)).
Proof.
  rewrite create_docx_in_eq.
  assert (H : forall l : document, forallb recorder l = true)
    by (induction l; [reflexivity|assumption]).
  now rewrite H.
Qed.

Lemma create_docx_document_eq (resume_text name : str) :
  create_docx_document resume_text name
  = if forallb python_docx
         (HeadingElt (name ++ lit "'s Resume") 0
          :: flat_map docx_calls (split_from newline O resume_text))
    then Ok (HeadingElt (name ++ lit "'s Resume") 0
             :: flat_map docx_calls (split_from newline O resume_text))
    else Raise ValueError.
Proof. apply create_docx_in_eq. Qed.

Lemma create_pdf_canvas_eq (letter : Z * Z) (resume_text name : str) :
  create_pdf_canvas letter resume_text name
  = Ok ([SetFont (lit "Helvetica-Bold") 16;
         DrawString 40 (snd letter - 40) (name ++ lit "'s Resume");
         SetFont (lit "Helvetica") 12]
        ++ pdf_lines_ops (snd letter) (snd letter - 40 - 30)
             (split_from newline O resume_text)
        ++ [ShowPage; Save]).
Proof.
  unfold create_pdf_canvas. destruct letter as [width height].
  rewrite split_newline_ok. cbn [bind snd].
  pose proof (fold_pdf_line height (split_from newline O resume_text)
    (setFont (drawString (setFont Canvas (lit "Helvetica-Bold") 16) 40
       (height - 40) (name ++ lit "'s Resume")) (lit "Helvetica") 12)
    (height - 40 - 30)) as H.
  destruct (fold_left (pdf_line height) (split_from newline O resume_text) _)
    as [c y].
  cbn [fst] in H. subst c.
  unfold save, showPage, setFont, drawString, Canvas.
  cbn [app]. rewrite <- !app_assoc. reflexivity.
Qed.

(** ** What [strip] and [replace] leave *)

Lemma lstrip_Forall (P : char -> Prop) (s : str) :
  Forall P s -> Forall P (lstrip s).
Proof.
  induction 1 as [|c s Hc Hs IH]; cbn [lstrip]; [constructor|].
  destruct (isspace c); [exact IH | now constructor].
Qed.

Lemma rstrip_Forall (P : char -> Prop) (s : str) :
  Forall P s -> Forall P (rstrip s).
Proof.
  induction 1 as [|c s Hc Hs IH]; cbn [rstrip]; [constructor|].
  destruct (rstrip s) as [|d r].
  - destruct (isspace c); repeat constructor; exact Hc.
  - now constructor.
Qed.

Lemma strip_Forall (P : char -> Prop) (s : str) :
  Forall P s -> Forall P (strip s).
Proof. intros H. now apply lstrip_Forall, rstrip_Forall. Qed.

Lemma replace_from_Forall (P : char -> Prop) (old : str) (s : str) :
  Forall P s -> forall k, Forall P (replace_from old [] k s).
Proof.
  induction 1 as [|c s Hc Hs IH]; intros k; cbn [replace_from];
    [constructor|].
  destruct k as [|k]; [|apply IH].
  destruct (startswith (c :: s) old); cbn [app]; [apply IH|].
  constructor; [exact Hc | apply IH].
Qed.

Lemma replace_delete_Forall (P : char -> Prop) (old s : str) :
  old <> [] -> Forall P s -> Forall P (replace s old []).
Proof.
  intros Ho H. unfold replace. destruct old as [|b old]; [easy|].
  now apply replace_from_Forall.
Qed.

(** Taking a single character out is filtering it out. *)
Lemma replace_char_filter (b : char) (s : str) :
  replace s [b] [] = List.filter (fun c => negb (char_eqb c b)) s.
Proof.
  unfold replace. induction s as [|c s IH]; [reflexivity|].
  cbn [replace_from startswith List.length Nat.pred List.filter app].
  rewrite andb_true_r. destruct (char_eqb c b); cbn [negb]; now rewrite IH.
Qed.

Lemma lstrip_head (s : str) :
  lstrip s <> [] -> isspace (hd 0%N (lstrip s)) = false.
Proof.
  induction s as [|c s IH]; cbn [lstrip]; [easy|].
  destruct (isspace c) eqn:Hc; [exact IH|]. intros _. exact Hc.
Qed.

Lemma lstrip_last (s : str) :
  lstrip s <> [] -> last (lstrip s) 0%N = last s 0%N.
Proof.
  induction s as [|c s IH]; cbn [lstrip]; [easy|].
  destruct (isspace c); [|reflexivity].
  intros H. rewrite (IH H).
  destruct s as [|d s]; [now cbn in H|reflexivity].
Qed.

Lemma rstrip_last (s : str) :
  rstrip s <> [] -> isspace (last (rstrip s) 0%N) = false.
Proof.
  induction s as [|c s IH]; cbn [rstrip]; [easy|].
  destruct (rstrip s) as [|d r].
  - destruct (isspace c) eqn:Hc; [easy|]. intros _. exact Hc.
  - intros _. change (last (c :: d :: r) 0%N) with (last (d :: r) 0%N).
    now apply IH.
Qed.

Lemma strip_trimmed (s : str) : trimmed (strip s).
Proof.
  unfold trimmed, strip.
  destruct (lstrip (rstrip s)) as [|c r] eqn:E; [now left|right].
  assert (Hne : lstrip (rstrip s) <> []) by now rewrite E.
  rewrite <- E. split; [now apply lstrip_head|].
  rewrite lstrip_last by exact Hne. apply rstrip_last.
  intros H. rewrite H in Hne. now apply Hne.
Qed.

Lemma split_from_newline_one_line (s : str) :
  Forall one_line (split_from newline O s).
Proof.
  induction s as [|c s IH]; [repeat constructor|].
  rewrite split_from_newline_cons.
  destruct (char_eqb c 10%N) eqn:Hc.
  - constructor; [constructor | exact IH].
  - apply N.eqb_neq in Hc.
    destruct (split_from newline O s) as [|p ps] eqn:E.
    + repeat constructor. exact Hc.
    + inversion IH as [|? ? Hp Hps]; subst.
      constructor; [constructor; assumption | exact Hps].
Qed.

Lemma split_from_newline_Forall (P : char -> Prop) (s : str) :
  Forall P s -> Forall (Forall P) (split_from newline O s).
Proof.
  induction 1 as [|c s Hc Hs IH]; [repeat constructor|].
  rewrite split_from_newline_cons.
  destruct (char_eqb c 10%N).
  - constructor; [constructor | exact IH].
  - destruct (split_from newline O s) as [|p ps] eqn:E.
    + repeat constructor. exact Hc.
    + inversion IH as [|? ? Hp Hps]; subst.
      constructor; [constructor; assumption | exact Hps].
Qed.

(** ** What the document library accepts *)

Lemma xml_compatible_Forall (text : str) :
  xml_compatible text = true <-> Forall (fun c => xml_char c = true) text.
Proof. unfold xml_compatible. now rewrite forallb_forall, Forall_forall. Qed.

Lemma xml_compatible_title (name : str) :
  xml_compatible (name ++ lit "'s Resume") = xml_compatible name.
Proof.
  unfold xml_compatible. rewrite forallb_app.
  change (forallb xml_char (lit "'s Resume")) with true.
  apply andb_true_r.
Qed.

Lemma python_docx_calls (line : str) :
  xml_compatible line = true -> forallb python_docx (docx_calls line) = true.
Proof.
  rewrite xml_compatible_Forall. intros H. rewrite docx_calls_eq.
  assert (Hs : xml_compatible (strip line) = true)
    by (apply xml_compatible_Forall; now apply strip_Forall).
  assert (Hh : xml_compatible (strip (replace line (lit "###") [])) = true).
  { apply xml_compatible_Forall, strip_Forall, replace_delete_Forall;
      [discriminate | exact H]. }
  destruct (startswith line (lit "###")); cbn [forallb python_docx];
    [now rewrite Hh|].
  destruct (startswith line (lit "-")); cbn [forallb python_docx];
    now rewrite Hs.
Qed.

Lemma python_docx_lines (lines : list str) :
  Forall (fun line => xml_compatible line = true) lines ->
  forallb python_docx (flat_map docx_calls lines) = true.
Proof.
  induction 1 as [|l ls Hl _ IH]; [reflexivity|].
  cbn [flat_map]. rewrite forallb_app, IH, python_docx_calls by exact Hl.
  reflexivity.
Qed.

(** A name and a text that are XML compatible are accepted whole. *)
Lemma python_docx_text (resume_text name : str) :
  implb (xml_compatible name && xml_compatible resume_text)
    (forallb python_docx
       (HeadingElt (name ++ lit "'s Resume") 0
        :: flat_map docx_calls (split_from newline O resume_text)))
  = true.
Proof.
  destruct (xml_compatible name) eqn:Hn; [|reflexivity].
  destruct (xml_compatible resume_text) eqn:Ht; [|reflexivity].
  cbn [andb implb forallb python_docx].
  rewrite xml_compatible_title, Hn.
  cbn [Z.leb andb].
  apply python_docx_lines.
  apply xml_compatible_Forall, split_from_newline_Forall in Ht.
  eapply Forall_impl; [|exact Ht].
  intros l Hl. now apply xml_compatible_Forall.
Qed.

(** ** C1: precedence and stripping *)



(** The two renderers differ on a bullet with a hyphen inside: the
    paginated one draws it without any hyphen, the flowing one keeps them
    all, the marker too. *)
Lemma pdf_bullet_loses_inner_hyphens :
  pdf_classify_line (snd letter_size) 722 (lit "- 2022-01 to 2023-12")
  = [mkLine Bullet (lit "202201 to 202312")]
  /\ docx_classify_line (lit "- 2022-01 to 2023-12")
     = [mkLine Bullet (lit "- 2022-01 to 2023-12")].
Proof. split; reflexivity. Qed.

(** Where the marker stands at the front only, taking every occurrence out
    is taking the marker off. *)
Lemma replace_from_skip (old new : str) (pre rest : str) :
  replace_from old new (List.length pre) (pre ++ rest)
  = replace_from old new O rest.
Proof.
  induction pre as [|c pre IH]; [|exact IH].
  destruct rest; reflexivity.
Qed.

Lemma replace_from_absent (old new : str) (s : str) :
  (forall n, startswith (skipn n s) old = false) ->
  replace_from old new O s = s.
Proof.
  induction s as [|c s IH]; intros H; [reflexivity|].
  pose proof (H O) as H0. cbn [skipn] in H0.
  cbn [replace_from]. rewrite H0. f_equal.
  apply IH. intros n. exact (H (S n)).
Qed.

Lemma startswith_self_app (p s : str) : startswith (p ++ s) p = true.
Proof.
  induction p as [|b p IH]; [reflexivity|].
  cbn [app]. rewrite startswith_cons, IH.
  unfold char_eqb. now rewrite N.eqb_refl.
Qed.

Lemma replace_leading_marker (b : char) (old rest : str) :
  (forall n, startswith (skipn n rest) (b :: old) = false) ->
  replace ((b :: old) ++ rest) (b :: old) [] = rest.
Proof.
  intros H. unfold replace. cbn [app replace_from].
  change (b :: old ++ rest) with ((b :: old) ++ rest).
  rewrite startswith_self_app. cbn [app List.length Nat.pred].
  rewrite replace_from_skip. now apply replace_from_absent.
Qed.

(** ** C2: the page break *)

Lemma pdf_line_cursor_mod (y : Z) (line : str) :
  y mod 5 = 2 -> snd (pdf_line 792 (Canvas, y) line) mod 5 = 2.
Proof.
  intros H.
  assert (H20 : (y - 20) mod 5 = 2)
    by (rewrite Zminus_mod, H; reflexivity).
  assert (H15 : (y - 15) mod 5 = 2)
    by (rewrite Zminus_mod, H; reflexivity).
  unfold pdf_line.
  destruct (y <? 40);
    destruct (startswith line (lit "###"));
    try destruct (startswith line (lit "-")); cbn [snd];
    first [reflexivity | exact H20 | exact H15].
Qed.

(** On a page of letter size no line finds the cursor at 40. *)
Lemma letter_cursor_never_at_threshold (resume_text : str) :
  Forall (fun y => y <> 40)
    (pdf_cursors 792 (792 - 40 - 30) (split_from newline O resume_text)).
Proof.
  assert (H : forall lines y, y mod 5 = 2 ->
            Forall (fun y => y <> 40) (pdf_cursors 792 y lines)).
  { induction lines as [|l ls IH]; intros y Hy; cbn [pdf_cursors].
    - constructor.
    - constructor.
      + intros ->. discriminate Hy.
      + apply IH. now apply pdf_line_cursor_mod. }
  apply H. reflexivity.
Qed.





(** ** C3: nothing is drawn below the bottom margin *)

Lemma pdf_line_ops_above (height y : Z) (line : str) :
  80 <= height -> Forall above_margin (pdf_line_ops height y line).
Proof.
  intros Hh. unfold pdf_line_ops, pdf_line.
  destruct (Z.ltb_spec y 40);
    destruct (startswith line (lit "###"));
    try destruct (startswith line (lit "-"));
    cbn [fst]; repeat constructor; cbn [above_margin]; lia.
Qed.

Lemma pdf_lines_ops_above (height y : Z) (lines : list str) :
  80 <= height -> Forall above_margin (pdf_lines_ops height y lines).
Proof.
  intros Hh. revert y; induction lines as [|l ls IH]; intros y;
    cbn [pdf_lines_ops].
  - constructor.
  - apply Forall_app. split; [now apply pdf_line_ops_above | apply IH].
Qed.

(** C3.  On a page at least 80 high (a letter page is 792 high) every
    iteration of the paginated renderer keeps all text at 40 or above, and
    so every [drawString] of a run, for any text, is at 40 or above: a
    cursor below 40 is moved to a new page before the line is drawn. *)
Theorem draws_stay_above_margin
  (letter : Z * Z) (resume_text name : str) :
  80 <= snd letter ->
  (forall c y line,
      Forall above_margin c ->
      Forall above_margin (fst (pdf_line (snd letter) (c, y) line)))
  /\ exists c,
       create_pdf_canvas letter resume_text name = Ok c
       /\ Forall above_margin c.
Proof.
  intros Hh. split.
  - intros c y line Hc. rewrite pdf_line_app. cbn [fst].
    apply Forall_app. split; [exact Hc | now apply pdf_line_ops_above].
  - eexists. split; [apply create_pdf_canvas_eq|].
    apply Forall_app. split.
    + repeat constructor. cbn [above_margin]. lia.
    + apply Forall_app. split; [now apply pdf_lines_ops_above|].
      repeat constructor.
Qed.

Lemma draws_stay_above_margin_witness :
  80 <= snd letter_size
  /\ ((forall c y line,
          Forall above_margin c ->
          Forall above_margin (fst (pdf_line (snd letter_size) (c, y) line)))
      /\ exists c,
           create_pdf_canvas letter_size
             (lit "### Summary" ++ newline ++ lit "- Did X") (lit "Jane Doe")
           = Ok c
           /\ Forall above_margin c).
Proof.
  split; [cbn; lia|].
  apply (draws_stay_above_margin letter_size
           (lit "### Summary" ++ newline ++ lit "- Did X") (lit "Jane Doe")).
  cbn; lia.
Defined.

(** ** C4: the three lines of the example *)

(** C4, the run of the code.  The paginated renderer renders the three
    lines as the heading "Summary", the bullet "Did X" and the paragraph
    "Plain text"; the flowing renderer gives the list paragraph the text
    "- Did X", marker included. *)
Theorem docx_bullet_keeps_marker :
  create_docx_document
    (lit "### Summary" ++ newline ++ lit "- Did X" ++ newline
       ++ lit "Plain text")
    (lit "Jane Doe")
  = Ok [HeadingElt (lit "Jane Doe's Resume") 0;
        HeadingElt (lit "Summary") 1;
        ParagraphElt (lit "- Did X") (Some (lit "ListBullet"));
        ParagraphElt (lit "Plain text") None]
  /\ flat_map docx_classify_line
       [lit "### Summary"; lit "- Did X"; lit "Plain text"]
     = [mkLine Heading (lit "Summary"); mkLine Bullet (lit "- Did X");
        mkLine Paragraph (lit "Plain text")]
  /\ create_pdf_canvas letter_size
       (lit "### Summary" ++ newline ++ lit "- Did X" ++ newline
          ++ lit "Plain text")
       (lit "Jane Doe")
     = Ok [SetFont (lit "Helvetica-Bold") 16;
           DrawString 40 752 (lit "Jane Doe's Resume");
           SetFont (lit "Helvetica") 12;
           SetFont (lit "Helvetica-Bold") 14;
           DrawString 40 722 (lit "Summary");
           SetFont (lit "Helvetica") 12;
           DrawString 50 702 (bullet_prefix ++ lit "Did X");
           SetFont (lit "Helvetica") 12;
           DrawString 40 687 (lit "Plain text");
           ShowPage; Save]
  /\ flat_map (pdf_classify_line (snd letter_size) 722)
       [lit "### Summary"; lit "- Did X"; lit "Plain text"]
     = Spec.classify
         (lit "### Summary" ++ newline ++ lit "- Did X" ++ newline
            ++ lit "Plain text").
Proof. repeat split; reflexivity. Qed.

(** ** C5: what decides the kind *)

Lemma kind_by_prefix (line : str) :
  List.map kind (docx_classify_line line) =
  [if startswith (firstn 3 line) (lit "###") then Heading
   else if startswith (firstn 3 line) (lit "-") then Bullet
   else Paragraph].
Proof.
  rewrite docx_classify_line_eq.
  rewrite (startswith_firstn line (lit "###")).
  rewrite (startswith_firstn line (lit "-")).
  rewrite (startswith_firstn (firstn 3 line) (lit "-")).
  change (List.length (lit "###")) with 3%nat.
  change (List.length (lit "-")) with 1%nat.
  rewrite firstn_firstn_le by lia.
  destruct (startswith (firstn 3 line) (lit "###")); [reflexivity|].
  destruct (startswith (firstn 1 line) (lit "-")); reflexivity.
Qed.

(** C5, as the code has it.  The kind of a line is decided by the line as
    it is, not trimmed: by its first three characters at most, the same in
    both renderers, whatever the cursor; a line is a heading exactly when
    it starts with "###" itself; and the lines of a text are rendered one
    by one, each from its own characters: the flowing renderer makes the
    calls of the lines in their order, and its library adds them unless
    it refuses one. *)
Theorem kind_decided_by_raw_prefix
  (height y height' y' : Z) (line line' : str) :
  firstn 3 line = firstn 3 line' ->
  List.map kind (docx_classify_line line)
  = List.map kind (docx_classify_line line')
  /\ List.map kind (pdf_classify_line height y line)
     = List.map kind (pdf_classify_line height' y' line')
  /\ (List.map kind (docx_classify_line line) = [Heading]
      <-> startswith line (lit "###") = true)
  /\ (List.map kind (pdf_classify_line height y line) = [Heading]
      <-> startswith line (lit "###") = true)
  /\ (forall lines doc,
        docx_lines recorder doc lines
        = Ok (doc ++ flat_map docx_calls lines)
        /\ List.map docx_view (doc ++ flat_map docx_calls lines)
           = List.map docx_view doc ++ flat_map docx_classify_line lines
        /\ docx_lines python_docx doc lines
           = if forallb python_docx (flat_map docx_calls lines)
             then Ok (doc ++ flat_map docx_calls lines)
             else Raise ValueError)
  /\ (forall lines,
        pdf_view (pdf_lines_ops height y lines)
        = flat_map (pdf_classify_line height' y') lines).
Proof.
  intros H.
  assert (Hpdf : forall h v h' v' l,
             pdf_classify_line h v l = pdf_classify_line h' v' l).
  { intros. now rewrite !pdf_classify_line_eq. }
  assert (Hk : forall h v l,
             List.map kind (pdf_classify_line h v l)
             = List.map kind (docx_classify_line l)).
  { intros. rewrite pdf_classify_line_eq, docx_classify_line_eq.
    destruct (startswith l (lit "###")); [reflexivity|].
    destruct (startswith l (lit "-")); reflexivity. }
  assert (Hh : List.map kind (docx_classify_line line) = [Heading]
               <-> startswith line (lit "###") = true).
  { split.
    - rewrite docx_classify_line_eq.
      destruct (startswith line (lit "###")); [reflexivity|].
      destruct (startswith line (lit "-")); discriminate.
    - intros E. rewrite docx_classify_line_eq, E. reflexivity. }
  assert (Hrec : forall l : document, forallb recorder l = true)
    by (induction l; [reflexivity|assumption]).
  split; [now rewrite !kind_by_prefix, H|].
  split; [now rewrite !Hk, !kind_by_prefix, H|].
  split; [exact Hh|]. split; [now rewrite Hk|].
  split.
  - intros lines doc. split; [|split].
    + now rewrite docx_lines_eq, Hrec.
    + rewrite List.map_app, flat_map_docx_view. reflexivity.
    + apply docx_lines_eq.
  - intros lines. rewrite pdf_view_lines.
    induction lines as [|l ls IH]; [reflexivity|].
    cbn [flat_map]. now rewrite IH, (Hpdf height 0 height' y').
Qed.

Lemma kind_decided_by_raw_prefix_witness :
  firstn 3 (lit "### Summary") = firstn 3 (lit "###Skills")
  /\ (List.map kind (docx_classify_line (lit "### Summary"))
      = List.map kind (docx_classify_line (lit "###Skills"))
      /\ List.map kind (pdf_classify_line 792 722 (lit "### Summary"))
         = List.map kind (pdf_classify_line 792 30 (lit "###Skills"))
      /\ (List.map kind (docx_classify_line (lit "### Summary")) = [Heading]
          <-> startswith (lit "### Summary") (lit "###") = true)
      /\ (List.map kind (pdf_classify_line 792 722 (lit "### Summary"))
          = [Heading]
          <-> startswith (lit "### Summary") (lit "###") = true)
      /\ (forall lines doc,
            docx_lines recorder doc lines
            = Ok (doc ++ flat_map docx_calls lines)
            /\ List.map docx_view (doc ++ flat_map docx_calls lines)
               = List.map docx_view doc ++ flat_map docx_classify_line lines
            /\ docx_lines python_docx doc lines
               = if forallb python_docx (flat_map docx_calls lines)
                 then Ok (doc ++ flat_map docx_calls lines)
                 else Raise ValueError)
      /\ (forall lines,
            pdf_view (pdf_lines_ops 792 722 lines)
            = flat_map (pdf_classify_line 792 30) lines)).
Proof.
  split; [reflexivity|].
  apply (kind_decided_by_raw_prefix 792 722 792 30
           (lit "### Summary") (lit "###Skills")).
  reflexivity.
Defined.

(** C5 as stated fails: "  ### Summary" is a heading to the classifier of
    the specification and a paragraph, marker kept, to both renderers. *)
Lemma indented_marker_is_paragraph :
  kind (Spec.classify_line (lit "  ### Summary")) = Heading
  /\ docx_classify_line (lit "  ### Summary")
     = [mkLine Paragraph (lit "### Summary")]
  /\ pdf_classify_line (snd letter_size) 722 (lit "  ### Summary")
     = [mkLine Paragraph (lit "### Summary")].
Proof. repeat split; reflexivity. Qed.

(** ** C6: the draw style of each kind *)

(** C6, as the code has it.  A heading is drawn in Helvetica-Bold 14 at
    the indent 40 and moves the cursor down by 20; a bullet is drawn in
    Helvetica 12 at the indent 50, after [bullet_prefix], and moves the
    cursor down by 15; a paragraph is drawn in Helvetica 12 at the indent
    40 and moves the cursor down by 15, as much as a bullet. *)
Theorem pdf_style_by_kind (height y : Z) (line : str) :
  exists text,
    match List.map kind (pdf_classify_line height y line) with
    | [Heading] =>
        drawn (lit "Helvetica", 12) (pdf_line_ops height y line)
        = [((lit "Helvetica-Bold", 14), 40, pdf_draw_position height y, text)]
        /\ pdf_advance height y line = 20
    | [Bullet] =>
        drawn (lit "Helvetica", 12) (pdf_line_ops height y line)
        = [((lit "Helvetica", 12), 50, pdf_draw_position height y,
            bullet_prefix ++ text)]
        /\ pdf_advance height y line = 15
    | [Paragraph] =>
        drawn (lit "Helvetica", 12) (pdf_line_ops height y line)
        = [((lit "Helvetica", 12), 40, pdf_draw_position height y, text)]
        /\ pdf_advance height y line = 15
    | _ => False
    end.
Proof.
  rewrite pdf_classify_line_eq.
  unfold pdf_advance, pdf_line_ops, pdf_draw_position, pdf_line.
  destruct (y <? 40);
    destruct (startswith line (lit "###"));
    try destruct (startswith line (lit "-"));
    eexists; cbn [List.map kind fst snd];
    (split; [reflexivity | lia]).
Qed.

(** C6 as stated fails: a bullet does not move the cursor further than a
    paragraph does. *)
Lemma bullet_step_equals_paragraph_step :
  pdf_advance (snd letter_size) 722 (lit "- Did X") = 15
  /\ pdf_advance (snd letter_size) 722 (lit "Plain text") = 15
  /\ ~ Spec.strictly_ordered
         (pdf_advance (snd letter_size) 722 (lit "### Summary"))
         (pdf_advance (snd letter_size) 722 (lit "- Did X"))
         (pdf_advance (snd letter_size) 722 (lit "Plain text")).
Proof.
  split; [reflexivity|]. split; [reflexivity|].
  intros [H _]. vm_compute in H. discriminate H.
Qed.

(** ** C7: one element for each line *)



(** ** C8: when the renderers return *)

(** C8, as the code has it.  The paginated renderer returns its bytes for
    every text and name.  The flowing renderer returns its bytes exactly
    when the document library accepts the title and the call of every
    line, which it does for every XML compatible name and text; otherwise
    it raises the [ValueError] of the library.  Nothing else in the two
    functions can raise: the separator of [split] is not empty.  The empty
    text is one empty paragraph: the flowing document is the title and an
    empty paragraph, the canvas the title, one empty text in the paragraph
    style and the end of the page. *)
Theorem renderers_return_unless_refused
  (bytes : Type) (docx_bytes : document -> bytes)
  (pdf_bytes : canvas -> bytes) (letter : Z * Z)
  (resume_text name : str) :
  create_docx bytes docx_bytes resume_text name
  = (if forallb python_docx
          (HeadingElt (name ++ lit "'s Resume") 0
           :: flat_map docx_calls (split_from newline O resume_text))
     then Ok (docx_bytes
                (HeadingElt (name ++ lit "'s Resume") 0
                 :: flat_map docx_calls (split_from newline O resume_text)))
     else Raise ValueError)
  /\ implb (xml_compatible name && xml_compatible resume_text)
       (forallb python_docx
          (HeadingElt (name ++ lit "'s Resume") 0
           :: flat_map docx_calls (split_from newline O resume_text)))
     = true
  /\ (exists c,
        create_pdf_canvas letter resume_text name = Ok c
        /\ create_pdf bytes pdf_bytes letter resume_text name
           = Ok (pdf_bytes c))
  /\ split [] newline = Ok [[]]
  /\ create_docx_document [] name
     = (if xml_compatible name
        then Ok [HeadingElt (name ++ lit "'s Resume") 0; ParagraphElt [] None]
        else Raise ValueError)
  /\ create_pdf_canvas letter [] name
     = Ok ([SetFont (lit "Helvetica-Bold") 16;
            DrawString 40 (snd letter - 40) (name ++ lit "'s Resume");
            SetFont (lit "Helvetica") 12]
           ++ (if snd letter - 40 - 30 <? 40 then [ShowPage] else [])
           ++ [SetFont (lit "Helvetica") 12;
               DrawString 40
                 (pdf_draw_position (snd letter) (snd letter - 40 - 30)) [];
               ShowPage; Save])
  /\ docx_classify_line [] = [mkLine Paragraph []]
  /\ pdf_classify_line (snd letter) (snd letter - 40 - 30) []
     = [mkLine Paragraph []].
Proof.
  split; [|split; [apply python_docx_text|split]].
  - unfold create_docx. rewrite create_docx_document_eq.
    destruct (forallb python_docx _); reflexivity.
  - eexists. split; [apply create_pdf_canvas_eq|].
    unfold create_pdf. rewrite create_pdf_canvas_eq. reflexivity.
  - split; [reflexivity|]. split.
    + rewrite create_docx_document_eq.
      cbn [split_from flat_map forallb python_docx app].
      rewrite xml_compatible_title.
      destruct (xml_compatible name); reflexivity.
    + split; [|split; [reflexivity|now rewrite pdf_classify_line_eq]].
      rewrite create_pdf_canvas_eq.
      cbn [split_from pdf_lines_ops].
      unfold pdf_line_ops, pdf_line, pdf_draw_position.
      destruct (snd letter - 40 - 30 <? 40); reflexivity.
Qed.

(** C8 as stated fails: a text with a NUL character in it makes the
    flowing renderer raise instead of returning bytes. *)
Lemma create_docx_raises_on_nul :
  create_docx document (fun doc => doc) (lit "a" ++ [0%N] ++ lit "b")
    (lit "Jane Doe")
  = Raise ValueError.
Proof. reflexivity. Qed.

(** ** C9: the two renderers agree on the kind *)

(** C9.  For every line, whatever the page height and the cursor, the
    element the flowing renderer appends and the text the paginated
    renderer draws are of the same kind. *)
Theorem renderers_agree_on_kind (height y : Z) (line : str) :
  List.map kind (docx_classify_line line)
  = List.map kind (pdf_classify_line height y line).
Proof.
  rewrite docx_classify_line_eq, pdf_classify_line_eq.
  destruct (startswith line (lit "###")); [reflexivity|].
  destruct (startswith line (lit "-")); reflexivity.
Qed.

(** ** C10: one or two number signs are no heading marker *)



(** * Further properties of the renderers *)

(** ** The texts both renderers put out *)

Lemma docx_line_texts (P : str -> Prop) (line : str) :
  P (strip (replace line (lit "###") [])) -> P (strip line) ->
  Forall (fun e => P (element_text e)) (docx_calls line).
Proof.
  intros Hh Hp. rewrite docx_calls_eq.
  destruct (startswith line (lit "###")); [repeat constructor; exact Hh|].
  destruct (startswith line (lit "-")); repeat constructor; exact Hp.
Qed.

Lemma pdf_classify_line_texts (P : str -> Prop) (height y : Z) (line : str) :
  P (strip (replace line (lit "###") [])) ->
  P (strip (replace line (lit "-") [])) -> P (strip line) ->
  Forall (fun cl => P (content cl)) (pdf_classify_line height y line).
Proof.
  intros Hh Hb Hp. rewrite pdf_classify_line_eq.
  destruct (startswith line (lit "###")); [repeat constructor; exact Hh|].
  destruct (startswith line (lit "-")); repeat constructor; assumption.
Qed.

Lemma Forall_flat_map_each {A B : Type} (P : B -> Prop) (Q : A -> Prop)
  (f : A -> list B) (l : list A) :
  (forall a, Q a -> Forall P (f a)) -> Forall Q l -> Forall P (flat_map f l).
Proof.
  intros H. induction 1 as [|a l Ha Hl IH]; cbn [flat_map]; [constructor|].
  apply Forall_app. split; [now apply H | exact IH].
Qed.

(** X1.  Every text the flowing renderer hands to its library after the
    title, so every text of its document when the library accepts them
    all, and every text the paginated renderer draws for a line (for a
    bullet, what follows [bullet_prefix]), has no white space at its start
    nor at its end. *)
Theorem rendered_texts_are_trimmed
  (letter : Z * Z) (resume_text name : str) :
  exists body ops,
    create_docx_in recorder resume_text name
    = Ok (HeadingElt (name ++ lit "'s Resume") 0 :: body)
    /\ create_docx_document resume_text name
       = (if forallb python_docx
               (HeadingElt (name ++ lit "'s Resume") 0 :: body)
          then Ok (HeadingElt (name ++ lit "'s Resume") 0 :: body)
          else Raise ValueError)
    /\ Forall (fun e => trimmed (element_text e)) body
    /\ create_pdf_canvas letter resume_text name
       = Ok ([SetFont (lit "Helvetica-Bold") 16;
              DrawString 40 (snd letter - 40) (name ++ lit "'s Resume");
              SetFont (lit "Helvetica") 12]
             ++ ops ++ [ShowPage; Save])
    /\ Forall (fun cl => trimmed (content cl)) (pdf_view ops).
Proof.
  do 2 eexists.
  split; [apply create_docx_calls_eq|].
  split; [apply create_docx_document_eq|].
  split; [|split; [apply create_pdf_canvas_eq|]].
  - apply (Forall_flat_map_each _ (fun _ => True)).
    + intros l _. apply docx_line_texts; apply strip_trimmed.
    + apply Forall_forall. easy.
  - rewrite pdf_view_lines.
    apply (Forall_flat_map_each _ (fun _ => True)).
    + intros l _. apply pdf_classify_line_texts; apply strip_trimmed.
    + apply Forall_forall. easy.
Qed.

(** X2.  No text the flowing renderer hands to its library after the
    title, so no text of its document when the library accepts them all,
    and no text the paginated renderer draws for a line, has a line break
    in it. *)
Theorem rendered_texts_are_single_lines
  (letter : Z * Z) (resume_text name : str) :
  exists body ops,
    create_docx_in recorder resume_text name
    = Ok (HeadingElt (name ++ lit "'s Resume") 0 :: body)
    /\ create_docx_document resume_text name
       = (if forallb python_docx
               (HeadingElt (name ++ lit "'s Resume") 0 :: body)
          then Ok (HeadingElt (name ++ lit "'s Resume") 0 :: body)
          else Raise ValueError)
    /\ Forall (fun e => one_line (element_text e)) body
    /\ create_pdf_canvas letter resume_text name
       = Ok ([SetFont (lit "Helvetica-Bold") 16;
              DrawString 40 (snd letter - 40) (name ++ lit "'s Resume");
              SetFont (lit "Helvetica") 12]
             ++ ops ++ [ShowPage; Save])
    /\ Forall (fun cl => one_line (content cl)) (pdf_view ops).
Proof.
  do 2 eexists.
  split; [apply create_docx_calls_eq|].
  split; [apply create_docx_document_eq|].
  split; [|split; [apply create_pdf_canvas_eq|]].
  - apply (Forall_flat_map_each _ one_line);
      [|apply split_from_newline_one_line].
    intros l Hl. apply docx_line_texts; unfold one_line in *.
    + apply strip_Forall, replace_delete_Forall; [discriminate|exact Hl].
    + now apply strip_Forall.
  - rewrite pdf_view_lines.
    apply (Forall_flat_map_each _ one_line);
      [|apply split_from_newline_one_line].
    intros l Hl. apply pdf_classify_line_texts; unfold one_line in *.
    + apply strip_Forall, replace_delete_Forall; [discriminate|exact Hl].
    + apply strip_Forall, replace_delete_Forall; [discriminate|exact Hl].
    + now apply strip_Forall.
Qed.

(** X3.  The text the paginated renderer draws for a bullet line, after
    [bullet_prefix], is the line with its hyphens filtered out and then
    stripped: no hyphen is left in it. *)
Theorem pdf_bullet_has_no_hyphen (height y : Z) (line : str) :
  startswith line (lit "-") = true ->
  drawn (lit "Helvetica", 12) (pdf_line_ops height y line)
  = [((lit "Helvetica", 12), 50, pdf_draw_position height y,
      bullet_prefix
        ++ strip (List.filter (fun c => negb (char_eqb c 45%N)) line))]
  /\ ~ In 45%N (strip (List.filter (fun c => negb (char_eqb c 45%N)) line)).
Proof.
  intros Hb.
  assert (H3 : startswith line (lit "###") = false).
  { destruct line as [|c l]; [discriminate Hb|].
    change (lit "-") with [45%N] in Hb. rewrite startswith_cons in Hb.
    apply andb_prop in Hb as [Hc _]. apply N.eqb_eq in Hc. subst c.
    reflexivity. }
  split.
  - unfold pdf_line_ops, pdf_line, pdf_draw_position.
    rewrite H3, Hb. change (lit "-") with [45%N].
    rewrite replace_char_filter.
    destruct (y <? 40); reflexivity.
  - intros Hin.
    assert (HF : Forall (fun c => c <> 45%N)
                   (strip (List.filter (fun c => negb (char_eqb c 45%N)) line))).
    { apply strip_Forall, Forall_forall. intros c Hc.
      apply filter_In in Hc as [_ Hc]. unfold char_eqb in Hc.
      intros ->. now rewrite N.eqb_refl in Hc. }
    rewrite Forall_forall in HF. now apply (HF _ Hin).
Qed.

Lemma pdf_bullet_has_no_hyphen_witness :
  startswith (lit "- 2022-01 to 2023-12") (lit "-") = true
  /\ (drawn (lit "Helvetica", 12)
        (pdf_line_ops 792 722 (lit "- 2022-01 to 2023-12"))
      = [((lit "Helvetica", 12), 50, pdf_draw_position 792 722,
          bullet_prefix
            ++ strip (List.filter (fun c => negb (char_eqb c 45%N))
                        (lit "- 2022-01 to 2023-12")))]
      /\ ~ In 45%N
           (strip (List.filter (fun c => negb (char_eqb c 45%N))
                     (lit "- 2022-01 to 2023-12")))).
Proof.
  split; [reflexivity|].
  apply (pdf_bullet_has_no_hyphen 792 722 (lit "- 2022-01 to 2023-12")).
  reflexivity.
Defined.

(** ** Pages *)

Lemma pdf_line_ops_eq (height y : Z) (line : str) :
  exists font size x text,
    pdf_line_ops height y line
    = (if y <? 40 then [ShowPage] else [])
        ++ [SetFont font size;
            DrawString x (pdf_draw_position height y) text]
    /\ (x = 40 \/ x = 50).
Proof.
  unfold pdf_line_ops, pdf_line, pdf_draw_position.
  destruct (y <? 40);
    destruct (startswith line (lit "###"));
    try destruct (startswith line (lit "-"));
    do 4 eexists; (split; [reflexivity | lia]).
Qed.

Lemma pdf_line_next (height y : Z) (line : str) :
  pdf_draw_position height y - 20
  <= snd (pdf_line height (Canvas, y) line)
  <= pdf_draw_position height y - 15.
Proof.
  unfold pdf_line, pdf_draw_position.
  destruct (y <? 40);
    destruct (startswith line (lit "###"));
    try destruct (startswith line (lit "-")); cbn [snd]; lia.
Qed.

Lemma every_page_drawn_line (height y : Z) (line : str) (rest : list op) :
  every_page_drawn true (pdf_line_ops height y line ++ rest)
  = every_page_drawn true rest.
Proof.
  destruct (pdf_line_ops_eq height y line) as (f & sz & x & t & -> & _).
  destruct (y <? 40); reflexivity.
Qed.

Lemma every_page_drawn_lines (height y : Z) (lines : list str)
  (rest : list op) :
  every_page_drawn true (pdf_lines_ops height y lines ++ rest)
  = every_page_drawn true rest.
Proof.
  revert y; induction lines as [|l ls IH]; intros y; [reflexivity|].
  cbn [pdf_lines_ops]. rewrite <- app_assoc, every_page_drawn_line.
  apply IH.
Qed.

(** X4.  The canvas of [create_pdf] ends with [showPage] and [save], has a
    page at least, and [showPage] is never called on a page without a
    call of [drawString] before it.  The text of that call can be empty,
    an empty line being drawn like any other. *)
Theorem every_page_has_a_draw_call
  (letter : Z * Z) (resume_text name : str) :
  exists ops,
    create_pdf_canvas letter resume_text name = Ok (ops ++ [ShowPage; Save])
    /\ every_page_drawn false (ops ++ [ShowPage; Save]) = true
    /\ (1 <= page_count (ops ++ [ShowPage; Save]))%nat.
Proof.
  eexists. split; [rewrite create_pdf_canvas_eq, app_assoc; reflexivity|].
  split.
  - cbn [app every_page_drawn]. rewrite every_page_drawn_lines. reflexivity.
  - unfold page_count. rewrite List.filter_app, List.length_app.
    cbn. lia.
Qed.

Lemma pdf_lines_ops_within (height y : Z) (lines : list str) :
  y <= height - 40 -> Forall (within_page height) (pdf_lines_ops height y lines).
Proof.
  revert y; induction lines as [|l ls IH]; intros y Hy;
    cbn [pdf_lines_ops]; [constructor|].
  assert (Hp : pdf_draw_position height y <= height - 40).
  { unfold pdf_draw_position. destruct (Z.ltb_spec y 40); lia. }
  apply Forall_app. split.
  - destruct (pdf_line_ops_eq height y l) as (f & sz & x & t & -> & Hx).
    destruct (y <? 40); cbn [app];
      repeat (apply Forall_cons || apply Forall_nil);
      cbn [within_page]; auto.
  - apply IH. pose proof (pdf_line_next height y l). lia.
Qed.

(** X5.  Every text of [create_pdf], the title included, is drawn at the indent
    40 or 50 and not above the top margin, [height - 40]. *)
Theorem draws_stay_below_top_margin
  (letter : Z * Z) (resume_text name : str) :
  exists c,
    create_pdf_canvas letter resume_text name = Ok c
    /\ Forall (within_page (snd letter)) c.
Proof.
  eexists. split; [apply create_pdf_canvas_eq|].
  apply Forall_app. split.
  - repeat (apply Forall_cons || apply Forall_nil);
      cbn [within_page]; auto. split; [now left | lia].
  - apply Forall_app. split.
    + apply pdf_lines_ops_within. lia.
    + repeat (apply Forall_cons || apply Forall_nil); exact I.
Qed.

Lemma page_count_app (a b : canvas) :
  page_count (a ++ b) = (page_count a + page_count b)%nat.
Proof. unfold page_count. now rewrite List.filter_app, List.length_app. Qed.

Lemma page_count_line (height y : Z) (line : str) :
  page_count (pdf_line_ops height y line) = if y <? 40 then 1%nat else 0%nat.
Proof.
  destruct (pdf_line_ops_eq height y line) as (f & sz & x & t & -> & _).
  destruct (y <? 40); reflexivity.
Qed.

Lemma pdf_lines_fit (height y : Z) (lines : list str) :
  40 + 20 * (Z.of_nat (List.length lines) - 1) <= y ->
  page_count (pdf_lines_ops height y lines) = 0%nat.
Proof.
  revert y; induction lines as [|l ls IH]; intros y Hy;
    cbn [pdf_lines_ops]; [reflexivity|].
  cbn [List.length] in Hy. rewrite page_count_app, page_count_line.
  destruct (Z.ltb_spec y 40); [lia|].
  rewrite IH; [reflexivity|].
  pose proof (pdf_line_next height y l) as Hn.
  unfold pdf_draw_position in Hn.
  destruct (Z.ltb_spec y 40); lia.
Qed.

Lemma pdf_lines_overflow (height y : Z) (lines : list str) :
  lines <> [] ->
  y - 15 * (Z.of_nat (List.length lines) - 1) < 40 ->
  (1 <= page_count (pdf_lines_ops height y lines))%nat.
Proof.
  revert y; induction lines as [|l ls IH]; intros y Hne Hy; [easy|].
  cbn [pdf_lines_ops]. cbn [List.length] in Hy.
  rewrite page_count_app, page_count_line.
  destruct (Z.ltb_spec y 40); [lia|].
  destruct ls as [|l' ls'].
  - cbn [List.length] in Hy. lia.
  - assert (Hls : (1 <= page_count
                     (pdf_lines_ops height
                        (snd (pdf_line height (Canvas, y) l)) (l' :: ls')))%nat).
    { apply IH; [discriminate|].
      pose proof (pdf_line_next height y l) as Hn.
      unfold pdf_draw_position in Hn.
      destruct (Z.ltb_spec y 40); cbn [List.length] in *; lia. }
    lia.
Qed.

(** X6.  A text whose lines all fit above the bottom margin even if each were a
    heading, 20 times its newlines at most [height - 110], is rendered by
    [create_pdf] on one page.  On a letter page: up to 35 lines. *)
Theorem short_text_fits_one_page
  (letter : Z * Z) (resume_text name : str) :
  20 * Z.of_nat (count_newlines resume_text) <= snd letter - 110 ->
  exists c,
    create_pdf_canvas letter resume_text name = Ok c
    /\ page_count c = 1%nat.
Proof.
  intros H. eexists. split; [apply create_pdf_canvas_eq|].
  rewrite !page_count_app, pdf_lines_fit; [reflexivity|].
  rewrite split_from_newline_length. lia.
Qed.

Lemma short_text_fits_one_page_witness :
  20 * Z.of_nat (count_newlines (lit "### Summary" ++ newline ++ lit "- Did X"))
  <= snd letter_size - 110
  /\ exists c,
       create_pdf_canvas letter_size
         (lit "### Summary" ++ newline ++ lit "- Did X") (lit "Jane Doe")
       = Ok c
       /\ page_count c = 1%nat.
Proof.
  split; [vm_compute; discriminate|].
  apply (short_text_fits_one_page letter_size
           (lit "### Summary" ++ newline ++ lit "- Did X") (lit "Jane Doe")).
  vm_compute; discriminate.
Defined.

(** X7.  A text with so many lines that they pass the bottom margin even if
    each moved the cursor by 15 only, 15 times its newlines more than
    [height - 110], is rendered by [create_pdf] on two pages at least.  On
    a letter page: from 47 lines on. *)
Theorem long_text_needs_more_pages
  (letter : Z * Z) (resume_text name : str) :
  snd letter - 110 < 15 * Z.of_nat (count_newlines resume_text) ->
  exists c,
    create_pdf_canvas letter resume_text name = Ok c
    /\ (2 <= page_count c)%nat.
Proof.
  intros H. eexists. split; [apply create_pdf_canvas_eq|].
  rewrite !page_count_app.
  pose proof (pdf_lines_overflow (snd letter) (snd letter - 40 - 30)
                (split_from newline O resume_text)
                (split_from_not_nil _ _ _)) as Hp.
  rewrite split_from_newline_length in Hp.
  assert (Hlast : page_count [ShowPage; Save] = 1%nat) by reflexivity.
  rewrite Hlast.
  assert ((1 <= page_count
             (pdf_lines_ops (snd letter) (snd letter - 40 - 30)
                (split_from newline O resume_text)))%nat) by (apply Hp; lia).
  lia.
Qed.

Lemma long_text_needs_more_pages_witness :
  snd letter_size - 110
  < 15 * Z.of_nat (count_newlines (List.repeat 10%N 46))
  /\ exists c,
       create_pdf_canvas letter_size (List.repeat 10%N 46) (lit "Jane Doe")
       = Ok c
       /\ (2 <= page_count c)%nat.
Proof.
  split; [vm_compute; reflexivity|].
  apply (long_text_needs_more_pages letter_size
           (List.repeat 10%N 46) (lit "Jane Doe")).
  vm_compute; reflexivity.
Defined.

(** * The application *)

Import App.

(** ** The two lists of the form *)

Lemma main_jobs_eq (widgets : nat -> JobWidgets) :
  main_jobs widgets
  = List.map job_record
      (List.filter job_complete (List.map widgets (seq 0 4))).
Proof.
  unfold main_jobs. cbn [seq fold_left List.map List.filter].
  unfold main_jobs_step.
  fold (job_complete (widgets 0%nat)) (job_complete (widgets 1%nat))
    (job_complete (widgets 2%nat)) (job_complete (widgets 3%nat)).
  fold (job_record (widgets 0%nat)) (job_record (widgets 1%nat))
    (job_record (widgets 2%nat)) (job_record (widgets 3%nat)).
  destruct (job_complete (widgets 0%nat)), (job_complete (widgets 1%nat)),
    (job_complete (widgets 2%nat)), (job_complete (widgets 3%nat));
    reflexivity.
Qed.

Lemma main_educations_eq (widgets : nat -> EducationWidgets) :
  main_educations widgets
  = List.map education_record
      (List.filter education_complete (List.map widgets (seq 0 2))).
Proof.
  unfold main_educations. cbn [seq fold_left List.map List.filter].
  unfold main_educations_step.
  fold (education_complete (widgets 0%nat))
    (education_complete (widgets 1%nat)).
  fold (education_record (widgets 0%nat)) (education_record (widgets 1%nat)).
  destruct (education_complete (widgets 0%nat)),
    (education_complete (widgets 1%nat)); reflexivity.
Qed.

(** X9.  The jobs [main] passes on are the complete ones of the four entries of
    the form, in their order, an entry with an empty field being left out
    without a message; the same for the two education entries.  Every
    value of every dictionary is a string. *)
Theorem form_lists_keep_complete_entries
  (jobs : nat -> JobWidgets) (educations : nat -> EducationWidgets) :
  main_jobs jobs
  = List.map job_record (List.filter job_complete (List.map jobs (seq 0 4)))
  /\ main_educations educations
     = List.map education_record
         (List.filter education_complete (List.map educations (seq 0 2)))
  /\ (List.length (main_jobs jobs) <= 4)%nat
  /\ (List.length (main_educations educations) <= 2)%nat
  /\ Forall (fun d => Forall (fun kv => exists s, snd kv = VStr s) d)
       (main_jobs jobs ++ main_educations educations).
Proof.
  rewrite main_jobs_eq, main_educations_eq.
  split; [reflexivity|]. split; [reflexivity|].
  split; [|split].
  - rewrite List.length_map.
    etransitivity; [apply List.filter_length_le|].
    now rewrite List.length_map.
  - rewrite List.length_map.
    etransitivity; [apply List.filter_length_le|].
    now rewrite List.length_map.
  - apply Forall_app. split; apply Forall_forall; intros d Hd;
      apply in_map_iff in Hd as [w [<- _]];
      repeat (apply Forall_cons || apply Forall_nil); cbn [snd];
      eexists; reflexivity.
Qed.

(** ** [generate_resume] *)

Lemma comprehension_raises {A B : Type} (f : A -> outcome B) (l : list A) :
  Exists (fun a => exists e, f a = Raised e) l ->
  exists e, comprehension f l = Raised e.
Proof.
  induction 1 as [a l [e He] | a l _ [e IH]]; cbn [comprehension].
  - exists e. now rewrite He.
  - destruct (f a) as [b|e']; cbn [and_then]; [|now exists e'].
    exists e. now rewrite IH.
Qed.

Lemma comprehension_returns {A B : Type} (f : A -> outcome B) (l : list A) :
  Forall (fun a => exists b, f a = Returned b) l ->
  exists bs,
    comprehension f l = Returned bs
    /\ Forall2 (fun a b => f a = Returned b) l bs.
Proof.
  induction 1 as [|a l [b Hb] _ [bs [IH H2]]]; cbn [comprehension].
  - exists []. split; [reflexivity | constructor].
  - exists (b :: bs). rewrite Hb, IH. split; [reflexivity|].
    now constructor.
Qed.

Lemma experience_entry_text_salary (job : dict) (s : str) :
  getitem job (lit "salary") = Returned (VStr s) ->
  exists e, experience_entry job = Raised e.
Proof.
  intros Hs. unfold experience_entry.
  repeat match goal with
         | |- context [and_then (getitem job ?k)] =>
             lazymatch k with
             | lit "salary" => fail
             | _ => destruct (getitem job k); cbn [and_then];
                    [|eexists; reflexivity]
             end
         end.
  rewrite Hs. cbn [and_then format_comma]. eexists; reflexivity.
Qed.

Lemma experience_entry_record (w : JobWidgets) :
  experience_entry (job_record w) = Raised FormatError.
Proof. reflexivity. Qed.

(** X10.  With a job whose salary is a string, as every job of the form is,
    [generate_resume] fails before it reaches the model: it creates the
    model object, shows one error and returns [None], and
    [generate_content] is not called. *)
Theorem generate_resume_rejects_text_salary
  (L : Library) (name : str) (jobs educations : list dict)
  (job_type tone length skills : str) (tr : list (event L)) :
  Exists (fun job => exists s, getitem job (lit "salary") = Returned (VStr s))
    jobs ->
  exists e,
    generate_resume L name jobs educations job_type tone length skills tr
    = (None,
       tr ++ [Call_GenerativeModel (lit "gemini-2.0-flash");
              St_error (lit "Error generating resume: "
                        ++ exception_str L e)]).
Proof.
  intros H.
  assert (Hc : exists e, comprehension experience_entry jobs = Raised e).
  { apply comprehension_raises. eapply Exists_impl; [|exact H].
    intros job [s Hs]. now apply (experience_entry_text_salary job s). }
  destruct Hc as [e He].
  unfold generate_resume, generate_resume_try, io_bind, emit, lift.
  destruct (GenerativeModel L (lit "gemini-2.0-flash")) as [m|e'].
  - exists e. rewrite He, <- app_assoc. reflexivity.
  - exists e'. rewrite <- app_assoc. reflexivity.
Qed.

Lemma generate_resume_rejects_text_salary_witness :
  Exists (fun job => exists s, getitem job (lit "salary") = Returned (VStr s))
    [job_record sample_job]
  /\ exists e,
       generate_resume (answering_library (lit "### Summary"))
         (lit "Jane Doe")
         [job_record sample_job]
         [] (lit "Other") (lit "Formal") (lit "Short (1 page)")
         (lit "Rocq") []
       = (None,
          [] ++ [Call_GenerativeModel (lit "gemini-2.0-flash");
                 St_error (lit "Error generating resume: "
                           ++ exception_str
                                (answering_library (lit "### Summary")) e)]).
Proof.
  assert (H : Exists
                (fun job =>
                   exists s, getitem job (lit "salary") = Returned (VStr s))
                [job_record sample_job]).
  { constructor. eexists. reflexivity. }
  split; [exact H|].
  exact (generate_resume_rejects_text_salary
           (answering_library (lit "### Summary")) (lit "Jane Doe") _ []
           (lit "Other") (lit "Formal") (lit "Short (1 page)") (lit "Rocq")
           [] H).
Defined.

Lemma experience_entry_integer_salary (job : dict) :
  has_keys [lit "position"; lit "company"; lit "location";
            lit "date_joined"; lit "date_left"; lit "problems_solved"] job ->
  (exists n, getitem job (lit "salary") = Returned (VInt n)) ->
  exists text, experience_entry job = Returned text.
Proof.
  intros Hk [n Hn]. unfold has_keys in Hk.
  repeat match goal with
         | H : Forall _ (_ :: _) |- _ =>
             let v := fresh "v" in
             let Hv := fresh "Hv" in
             inversion H as [|? ? [v Hv] ?]; subst; clear H
         end.
  unfold experience_entry.
  repeat match goal with
         | H : getitem job ?k = Returned _ |- _ =>
             rewrite H; clear H; cbn [and_then format_comma]
         end.
  eexists; reflexivity.
Qed.

Lemma education_entry_keys (edu : dict) :
  has_keys [lit "subject"; lit "institution"; lit "date_joined";
            lit "completion_date"; lit "grade"] edu ->
  exists text, education_entry edu = Returned text.
Proof.
  intros Hk. unfold has_keys in Hk.
  repeat match goal with
         | H : Forall _ (_ :: _) |- _ =>
             let v := fresh "v" in
             let Hv := fresh "Hv" in
             inversion H as [|? ? [v Hv] ?]; subst; clear H
         end.
  unfold education_entry.
  repeat match goal with
         | H : getitem edu ?k = Returned _ |- _ =>
             rewrite H; clear H; cbn [and_then]
         end.
  eexists; reflexivity.
Qed.

(** X11.  With every key present, every salary an integer and a model that
    answers, [generate_resume] asks the model once, with the prompt built
    from the experience entry of each job and the education entry of each
    education, in their order and joined by newlines, shows no error and
    returns the text of the answer. *)
Theorem generate_resume_with_integer_salaries
  (L : Library) (name : str) (jobs educations : list dict)
  (job_type tone length skills : str) (tr : list (event L))
  (m : Model L) (r : Response L) (text : str) :
  Forall (fun job =>
            has_keys [lit "position"; lit "company"; lit "location";
                      lit "date_joined"; lit "date_left";
                      lit "problems_solved"] job
            /\ exists n, getitem job (lit "salary") = Returned (VInt n))
    jobs ->
  Forall (has_keys [lit "subject"; lit "institution"; lit "date_joined";
                    lit "completion_date"; lit "grade"]) educations ->
  GenerativeModel L (lit "gemini-2.0-flash") = Returned m ->
  (forall prompt, generate_content L m prompt = Returned r) ->
  response_text L r = Returned text ->
  exists experience education,
    Forall2 (fun job text => experience_entry job = Returned text)
      jobs experience
    /\ Forall2 (fun edu text => education_entry edu = Returned text)
         educations education
    /\ generate_resume L name jobs educations job_type tone length skills tr
       = (Some text,
          tr ++ [Call_GenerativeModel (lit "gemini-2.0-flash");
                 Call_generate_content
                   (prompt_text L name (join newline education)
                      (join newline experience) job_type tone length
                      skills)]).
Proof.
  intros Hj He Hm Hg Ht.
  destruct (comprehension_returns experience_entry jobs)
    as [experience [Hx Hxl]].
  { eapply Forall_impl; [|exact Hj]. intros job [Hk Hs].
    now apply experience_entry_integer_salary. }
  destruct (comprehension_returns education_entry educations)
    as [education [Hd Hdl]].
  { eapply Forall_impl; [|exact He]. intros edu Hk.
    now apply education_entry_keys. }
  exists experience, education.
  split; [exact Hxl|]. split; [exact Hdl|].
  unfold generate_resume, generate_resume_try, io_bind, emit, lift.
  rewrite Hm, Hx, Hd, Hg, Ht, <- app_assoc. reflexivity.
Qed.

Lemma generate_resume_with_integer_salaries_witness :
  Forall (fun job =>
            has_keys [lit "position"; lit "company"; lit "location";
                      lit "date_joined"; lit "date_left";
                      lit "problems_solved"] job
            /\ exists n, getitem job (lit "salary") = Returned (VInt n))
    [sample_paid_job]
  /\ Forall (has_keys [lit "subject"; lit "institution"; lit "date_joined";
                       lit "completion_date"; lit "grade"])
       [education_record sample_education]
  /\ GenerativeModel (answering_library (lit "### Summary"))
       (lit "gemini-2.0-flash") = Returned tt
  /\ (forall prompt,
        generate_content (answering_library (lit "### Summary")) tt prompt
        = Returned tt)
  /\ response_text (answering_library (lit "### Summary")) tt
     = Returned (lit "### Summary")
  /\ exists experience education,
       Forall2 (fun job text => experience_entry job = Returned text)
         [sample_paid_job] experience
       /\ Forall2 (fun edu text => education_entry edu = Returned text)
            [education_record sample_education] education
       /\ generate_resume (answering_library (lit "### Summary"))
            (lit "Jane Doe") [sample_paid_job]
            [education_record sample_education]
            (lit "Other") (lit "Formal") (lit "Short (1 page)")
            (lit "Rocq") []
          = (Some (lit "### Summary"),
             [] ++ [Call_GenerativeModel (lit "gemini-2.0-flash");
                    Call_generate_content
                      (prompt_text (answering_library (lit "### Summary"))
                         (lit "Jane Doe") (join newline education)
                         (join newline experience) (lit "Other")
                         (lit "Formal") (lit "Short (1 page)")
                         (lit "Rocq"))]).
Proof.
  assert (Hj : Forall
                 (fun job =>
                    has_keys [lit "position"; lit "company"; lit "location";
                              lit "date_joined"; lit "date_left";
                              lit "problems_solved"] job
                    /\ exists n,
                         getitem job (lit "salary") = Returned (VInt n))
                 [sample_paid_job]).
  { repeat constructor; eexists; reflexivity. }
  assert (He : Forall
                 (has_keys [lit "subject"; lit "institution";
                            lit "date_joined"; lit "completion_date";
                            lit "grade"])
                 [education_record sample_education]).
  { repeat constructor; eexists; reflexivity. }
  split; [exact Hj|]. split; [exact He|].
  split; [reflexivity|]. split; [reflexivity|]. split; [reflexivity|].
  exact (generate_resume_with_integer_salaries
           (answering_library (lit "### Summary")) (lit "Jane Doe")
           [sample_paid_job] [education_record sample_education]
           (lit "Other") (lit "Formal") (lit "Short (1 page)") (lit "Rocq")
           [] tt tt (lit "### Summary") Hj He eq_refl (fun _ => eq_refl)
           eq_refl).
Defined.

(** ** The press of the button *)

Lemma comprehension_first_raises {A B : Type} (f : A -> outcome B)
  (a : A) (l : list A) (e : exception) :
  f a = Raised e -> comprehension f (a :: l) = Raised e.
Proof. intros H. cbn [comprehension]. now rewrite H. Qed.

Lemma main_jobs_experience (widgets : nat -> JobWidgets) :
  nonempty (main_jobs widgets) = true ->
  comprehension experience_entry (main_jobs widgets) = Raised FormatError.
Proof.
  rewrite main_jobs_eq.
  destruct (List.filter job_complete (List.map widgets (seq 0 4)))
    as [|w ws]; [discriminate|].
  intros _. cbn [List.map].
  apply comprehension_first_raises, experience_entry_record.
Qed.

(** X12.  Whatever is entered in the form, [main] never reaches the renderers:
    without a press of the button nothing happens; with an incomplete form
    the message about required fields is shown; with a complete form the
    model object is created and the error of [generate_resume] is shown,
    the salary typed into the form being a string.  No prompt is sent, no
    success is shown and no download is offered. *)
Theorem main_never_offers_download
  (L : Library) (form : Form) (tr : list (event L)) :
  main_submit L form tr
  = (Returned tt,
     tr ++ (if submit_button form then
              if (truthy (name form) && truthy (skills form)
                  && truthy (job_type form)
                  && nonempty (main_jobs (job_widgets form))
                  && nonempty (main_educations (education_widgets form)))%bool
              then
                [Call_GenerativeModel (lit "gemini-2.0-flash");
                 St_error
                   (lit "Error generating resume: "
                    ++ exception_str L
                         match GenerativeModel L (lit "gemini-2.0-flash") with
                         | Returned _ => FormatError
                         | Raised e => e
                         end)]
              else
                [St_error (lit "Please fill in all required fields marked with * for at least one job and one education entry.")]
            else [])).
Proof.
  unfold main_submit.
  destruct (submit_button form);
    [|unfold io_ret; now rewrite app_nil_r].
  destruct (truthy (name form) && truthy (skills form)
            && truthy (job_type form)
            && nonempty (main_jobs (job_widgets form))
            && nonempty (main_educations (education_widgets form)))%bool
    eqn:Hc; [|reflexivity].
  assert (Hj : nonempty (main_jobs (job_widgets form)) = true).
  { apply andb_prop in Hc as [Hc _]. now apply andb_prop in Hc as [_ Hc]. }
  unfold generate_resume, generate_resume_try, io_bind, emit, lift.
  rewrite (main_jobs_experience _ Hj).
  destruct (GenerativeModel L (lit "gemini-2.0-flash"));
    rewrite <- app_assoc; reflexivity.
Qed.

(** * Headings as they are usually written *)

(** X8.  A line that is "###" followed by a rest in which "###" does not occur
    again is rendered by both renderers as a heading whose text is the
    rest without the white space around it; the library of the flowing
    renderer adds it unless that text is not XML compatible. *)
Theorem heading_content_after_marker (height y : Z) (rest : str) :
  (forall n, startswith (skipn n rest) (lit "###") = false) ->
  docx_calls (lit "###" ++ rest) = [HeadingElt (strip rest) 1]
  /\ docx_line python_docx Document (lit "###" ++ rest)
     = (if xml_compatible (strip rest) then Ok [HeadingElt (strip rest) 1]
        else Raise ValueError)
  /\ drawn (lit "Helvetica", 12) (pdf_line_ops height y (lit "###" ++ rest))
     = [((lit "Helvetica-Bold", 14), 40, pdf_draw_position height y,
         strip rest)]
  /\ docx_classify_line (lit "###" ++ rest) = [mkLine Heading (strip rest)]
  /\ pdf_classify_line height y (lit "###" ++ rest)
     = [mkLine Heading (strip rest)].
Proof.
  intros H.
  assert (Hr : replace (lit "###" ++ rest) (lit "###") [] = rest).
  { change (lit "###") with (35%N :: [35%N; 35%N]) in *.
    now apply replace_leading_marker. }
  assert (Hs : startswith (lit "###" ++ rest) (lit "###") = true)
    by apply startswith_self_app.
  rewrite docx_classify_line_eq, (pdf_classify_line_eq height y),
    docx_line_eq, docx_calls_eq.
  unfold pdf_line_ops, pdf_line, pdf_draw_position.
  rewrite Hs, Hr.
  split; [reflexivity|].
  split; [cbn [forallb python_docx Z.leb andb];
          rewrite andb_true_r; reflexivity|].
  split; [destruct (y <? 40); reflexivity|].
  split; reflexivity.
Qed.

Lemma heading_content_after_marker_witness :
  (forall n, startswith (skipn n (lit " Summary ")) (lit "###") = false)
  /\ (docx_calls (lit "###" ++ lit " Summary ")
      = [HeadingElt (strip (lit " Summary ")) 1]
      /\ docx_line python_docx Document (lit "###" ++ lit " Summary ")
         = (if xml_compatible (strip (lit " Summary "))
            then Ok [HeadingElt (strip (lit " Summary ")) 1]
            else Raise ValueError)
      /\ drawn (lit "Helvetica", 12)
           (pdf_line_ops 792 722 (lit "###" ++ lit " Summary "))
         = [((lit "Helvetica-Bold", 14), 40, pdf_draw_position 792 722,
             strip (lit " Summary "))]
      /\ docx_classify_line (lit "###" ++ lit " Summary ")
         = [mkLine Heading (strip (lit " Summary "))]
      /\ pdf_classify_line 792 722 (lit "###" ++ lit " Summary ")
         = [mkLine Heading (strip (lit " Summary "))]).
Proof.
  assert (H : forall n,
             startswith (skipn n (lit " Summary ")) (lit "###") = false).
  { intros n. do 10 (destruct n as [|n]; [reflexivity|]).
    destruct n; reflexivity. }
  split; [exact H|].
  exact (heading_content_after_marker 792 722 (lit " Summary ") H).
Defined.
